(** * track_buttons.py: the controller-button polling example

    A shallow embedding of [src/xr_examples/track_buttons.py].  The
    script's module globals (the profile and component-path dictionaries)
    live in an explicit store, every call into the [xr] package, [print]
    and [time.sleep] is recorded as an event of a trace, and Python
    exceptions are an outcome of a computation, so that the one
    [try]/[except] of the script can be modelled as written. *)

From Stdlib Require Import ZArith List String Ascii Bool Lia.
From Stdlib Require Import DecimalString SpecFloat.
From stdpp Require Import base option gmap strings.

Local Open Scope string_scope.

(** ** Python strings *)

Module PyStr.

(** [sep.join(parts)] *)
Fixpoint join (sep : string) (parts : list string) : string :=
  match parts with
  | [] => ""
  | [p] => p
  | p :: rest => p ++ sep ++ join sep rest
  end.

Fixpoint repeat_char (c : ascii) (n : nat) : string :=
  match n with
  | O => ""
  | S k => String c (repeat_char c k)
  end.

(** [f"{s:<width}"]: left-aligned, padded with spaces *)
Definition ljust (width : nat) (s : string) : string :=
  s ++ repeat_char " " (width - String.length s).

(** [s * n] for a one-character string *)
Definition times (s : string) (n : nat) : string :=
  String.concat "" (repeat s n).

(** [s.replace(old, new)] for single characters *)
Fixpoint replace_char (old new : ascii) (s : string) : string :=
  match s with
  | EmptyString => ""
  | String c rest =>
      String (if Ascii.eqb c old then new else c) (replace_char old new rest)
  end.

Definition is_lower (c : ascii) : bool :=
  let n := nat_of_ascii c in (97 <=? n)%nat && (n <=? 122)%nat.
Definition is_upper (c : ascii) : bool :=
  let n := nat_of_ascii c in (65 <=? n)%nat && (n <=? 90)%nat.
Definition to_upper (c : ascii) : ascii :=
  if is_lower c then ascii_of_nat (nat_of_ascii c - 32) else c.
Definition to_lower (c : ascii) : ascii :=
  if is_upper c then ascii_of_nat (nat_of_ascii c + 32) else c.

(** [s.title()] on ASCII text: a cased character is upper-cased when it
    follows an uncased one and lower-cased otherwise. *)
Fixpoint title_from (prev_cased : bool) (s : string) : string :=
  match s with
  | EmptyString => ""
  | String c rest =>
      let cased := is_lower c || is_upper c in
      String (if prev_cased then to_lower c else to_upper c)
             (title_from cased rest)
  end.
Definition title (s : string) : string := title_from false s.

(** [str(b)] for a [bool] *)
Definition str_bool (b : bool) : string := if b then "True" else "False".

End PyStr.

(** ** Python floats and the [f] presentation type

    A Python [float] is an IEEE-754 binary64 value; [spec_float] gives its
    sign, mantissa and exponent exactly, so that fixed-point formatting
    can be computed on integers. *)

Module PyFloat.

Definition float := spec_float.

(** [0.5] as a binary64 value: [2^52 * 2^-53]. *)
Definition half : float := S754_finite false 4503599627370496 (-53).

(** [float(n)] for a Python [int], as the [f] presentation type applies it
    to an integer: exact while [|n| <= 2^53], which covers every 32-bit
    value. *)
Definition float_of_int (n : Z) : float :=
  match n with
  | Z0 => S754_zero false
  | Zpos p => S754_finite false p 0
  | Zneg p => S754_finite true p 0
  end.

(** The integer nearest to [m * 2^e * 10^prec], ties to even: what the
    correctly rounded [%.<prec>f] conversion prints, without its point. *)
Definition scaled_round (prec : nat) (m : positive) (e : Z) : Z :=
  let num := (Z.pos m * 10 ^ Z.of_nat prec * 2 ^ Z.max e 0)%Z in
  let den := (2 ^ Z.max (- e) 0)%Z in
  let q := (num / den)%Z in
  let r := (num mod den)%Z in
  if (2 * r <? den)%Z then q
  else if (den <? 2 * r)%Z then (q + 1)%Z
  else if Z.even q then q else (q + 1)%Z.

Definition digit_char (d : Z) : ascii := ascii_of_nat (48 + Z.to_nat d).

(** The [n] low decimal digits of [x], most significant first. *)
Fixpoint fixed_digits (n : nat) (x : Z) : string :=
  match n with
  | O => ""
  | S k => fixed_digits k (x / 10) ++ String (digit_char (x mod 10)) ""
  end.

Definition int_digits (x : Z) : string :=
  NilZero.string_of_uint (N.to_uint (Z.to_N x)).

Definition sign_prefix (plus negative : bool) : string :=
  if negative then "-" else if plus then "+" else "".

(** [format(x, ".<prec>f")], and with [plus] set [format(x, "+.<prec>f")]. *)
Definition format_f (plus : bool) (prec : nat) (x : float) : string :=
  match x with
  | S754_nan => sign_prefix plus false ++ "nan"
  | S754_infinity s => sign_prefix plus s ++ "inf"
  | S754_zero s =>
      sign_prefix plus s ++ "0" ++
      (if Nat.eqb prec 0 then "" else "." ++ fixed_digits prec 0)
  | S754_finite s m e =>
      let r := scaled_round prec m e in
      sign_prefix plus s ++ int_digits (r / 10 ^ Z.of_nat prec) ++
      (if Nat.eqb prec 0 then "" else "." ++ fixed_digits prec r)
  end.

Definition is_finite (x : float) : bool :=
  match x with
  | S754_zero _ | S754_finite _ _ _ => true
  | _ => false
  end.

End PyFloat.

Import PyStr PyFloat.

Local Open Scope list_scope.

(** ** Values of the [xr] package the script handles *)

(** [xr.ActionType]: the script names three members; any other member is
    kept by its raw value. *)
Inductive ActionType :=
| FLOAT_INPUT
| BOOLEAN_INPUT
| VECTOR2F_INPUT
| OTHER_ACTION_TYPE (raw : Z).

(** [xr.SessionState]: the script names [FOCUSED] only. *)
Inductive SessionState :=
| FOCUSED
| OTHER_SESSION_STATE (raw : Z).

Definition SessionState_eqb (a b : SessionState) : bool :=
  match a, b with
  | FOCUSED, FOCUSED => true
  | OTHER_SESSION_STATE m, OTHER_SESSION_STATE n => (m =? n)%Z
  | _, _ => false
  end.

(** Handles.  A path handle stands for the string it was made from, an
    action handle for the name and type it was created with. *)
Inductive Path := PathOf (path_string : string).
Inductive Action := ActionHandle (action_type : ActionType) (action_name : string).
Inductive XrInstance := context_instance.
Inductive ActionSet := default_action_set.

Record Vector2f := { x : float; y : float }.

(** [xr.ActionStateFloat], [xr.ActionStateBoolean], [xr.ActionStateVector2f] *)
Record ActionState (T : Type) := { current_state : T; is_active : bool }.
Arguments current_state {T} _.
Arguments is_active {T} _.

(** Python exceptions the model can raise.  [XrError] is any exception of
    the [xr] package, by result code. *)
Inductive exn :=
| NameError (name : string)
| TypeError
| KeyError (key : string)
| IndexError
| ValueError
| XrError (code : Z).

Inductive outcome (A : Type) :=
| Returned (a : A)
| Raised (e : exn).
Arguments Returned {A} _.
Arguments Raised {A} _.

(** The [current_state] of an [xr.ActionStateBoolean] is an [XrBool32], a
    [c_uint32] field: read through ctypes it is a Python [int] in
    [0, 2^32) (1 for [XR_TRUE], 0 for [XR_FALSE]), not a [bool]. *)
Definition c_uint32 (raw : Z) : Z := (raw mod 2 ^ 32)%Z.

(** What the runtime answers to the three state queries while one frame is
    being processed: the input of [get_state].  The boolean state carries
    the raw 32-bit word of its [current_state]. *)
Record Session := {
  float_result : Action -> Path -> outcome (ActionState float);
  boolean_result : Action -> Path -> outcome (ActionState Z);
  vector2f_result : Action -> Path -> outcome (ActionState Vector2f);
}.

(** The Python values the printing code tells apart: [None], a [bool], an
    [int] that is not a [bool], a [float], a 2-tuple of floats. *)
Inductive pyvalue :=
| PyNone
| PyBool (b : bool)
| PyInt (n : Z)
| PyFloat (v : float)
| PyTuple (v0 v1 : float).

(** Objects bound to the module's global names. *)
Inductive pyobject :=
| ProfileDict (d : gmap string string)
| PathDict (d : gmap string (string * string)).

Definition namespace : Type := gmap string pyobject.

(** Observable calls, in program order. *)
Inductive event :=
| create_action_call (action_type : ActionType)
    (action_name localized_action_name : string) (count_subaction_paths : nat)
| string_to_path_call (path_string : string)
| suggest_interaction_profile_bindings_call (interaction_profile : Path)
    (count_suggested_bindings : nat) (suggested_bindings : list (Action * Path))
| sync_actions_call
| get_action_state_call (kind : ActionType) (action : Action) (subaction_path : Path)
| print_call (text : string)
| sleep_call (secs : float).

(** ** The monad of script fragments

    A fragment runs in a global namespace and yields an outcome, the
    namespace it leaves and the events it performed. *)

Definition Py (A : Type) : Type := namespace -> outcome A * namespace * list event.

Definition ret {A} (a : A) : Py A := fun g => (Returned a, g, []).

Definition bind {A B} (m : Py A) (k : A -> Py B) : Py B :=
  fun g =>
    match m g with
    | (Returned a, g1, t1) =>
        match k a g1 with
        | (o, g2, t2) => (o, g2, t1 ++ t2)
        end
    | (Raised e, g1, t1) => (Raised e, g1, t1)
    end.

Declare Scope py_scope.
Notation "x <- m ;; k" := (bind m (fun x => k))
  (at level 100, m at next level, right associativity) : py_scope.
Notation "m ;; k" := (bind m (fun _ => k))
  (at level 100, right associativity) : py_scope.
Local Open Scope py_scope.

Definition raise {A} (e : exn) : Py A := fun g => (Raised e, g, []).

(** [try: body  except: handler] with a bare [except]: every exception is
    caught. *)
Definition try_except {A} (body : Py A) (handler : exn -> Py A) : Py A :=
  fun g =>
    match body g with
    | (Returned a, g1, t1) => (Returned a, g1, t1)
    | (Raised e, g1, t1) =>
        match handler e g1 with
        | (o, g2, t2) => (o, g2, t1 ++ t2)
        end
    end.

Definition emit (e : event) : Py unit := fun g => (Returned tt, g, [e]).

Definition load_global (name : string) : Py pyobject :=
  fun g =>
    match g !! name with
    | Some o => (Returned o, g, [])
    | None => (Raised (NameError name), g, [])
    end.

Definition store_global (name : string) (o : pyobject) : Py unit :=
  fun g => (Returned tt, <[name := o]> g, []).

Definition run_outcome {A} (r : outcome A * namespace * list event) : outcome A :=
  fst (fst r).
Definition run_globals {A} (r : outcome A * namespace * list event) : namespace :=
  snd (fst r).
Definition run_trace {A} (r : outcome A * namespace * list event) : list event :=
  snd r.

(** [for x in xs: body x] *)
Fixpoint for_each {A} (xs : list A) (body : A -> Py unit) : Py unit :=
  match xs with
  | [] => ret tt
  | x0 :: rest => body x0 ;; for_each rest body
  end.

(** A comprehension [[f x for x in xs]] whose element expression has effects. *)
Fixpoint comprehension {A B} (xs : list A) (f : A -> Py B) : Py (list B) :=
  match xs with
  | [] => ret []
  | x0 :: rest => b <- f x0 ;; bs <- comprehension rest f ;; ret (b :: bs)
  end.

(** ** Calls out of the script *)

Definition print (text : string) : Py unit := emit (print_call text).
Definition sleep (secs : float) : Py unit := emit (sleep_call secs).

Definition string_to_path (instance : XrInstance) (path_string : string) : Py Path :=
  emit (string_to_path_call path_string) ;; ret (PathOf path_string).

Definition sync_actions : Py unit := emit sync_actions_call.

(** A runtime query: the call is made, then it returns or raises as the
    runtime decides. *)
Definition runtime_query {A} (ev : event) (r : outcome A) : Py A :=
  emit ev ;;
  match r with
  | Returned a => ret a
  | Raised e => raise e
  end.

Definition get_action_state_float (session : Session) (action : Action) (hand_path : Path)
  : Py (ActionState float) :=
  runtime_query (get_action_state_call FLOAT_INPUT action hand_path)
                (float_result session action hand_path).

Definition get_action_state_boolean (session : Session) (action : Action) (hand_path : Path)
  : Py (ActionState Z) :=
  runtime_query (get_action_state_call BOOLEAN_INPUT action hand_path)
                (boolean_result session action hand_path).

Definition get_action_state_vector2f (session : Session) (action : Action) (hand_path : Path)
  : Py (ActionState Vector2f) :=
  runtime_query (get_action_state_call VECTOR2F_INPUT action hand_path)
                (vector2f_result session action hand_path).

(** ** Module globals (lines 16-65) *)

Definition PROFILES : gmap string string := list_to_map [
  ("khr", "/interaction_profiles/khr/simple_controller");
  ("index", "/interaction_profiles/valve/index_controller");
  ("oculus", "/interaction_profiles/oculus/touch_controller");
  ("vive", "/interaction_profiles/htc/vive_controller");
  ("wmr", "/interaction_profiles/microsoft/motion_controller") ].

Definition TRIGGER_PATHS : gmap string (string * string) := list_to_map [
  ("khr", ("/user/hand/left/input/select/click", "/user/hand/right/input/select/click"));
  ("index", ("/user/hand/left/input/trigger/value", "/user/hand/right/input/trigger/value"));
  ("oculus", ("/user/hand/left/input/trigger/value", "/user/hand/right/input/trigger/value"));
  ("vive", ("/user/hand/left/input/trigger/value", "/user/hand/right/input/trigger/value"));
  ("wmr", ("/user/hand/left/input/trigger/value", "/user/hand/right/input/trigger/value")) ].

Definition SQUEEZE_PATHS : gmap string (string * string) := list_to_map [
  ("index", ("/user/hand/left/input/squeeze/force", "/user/hand/right/input/squeeze/force"));
  ("oculus", ("/user/hand/left/input/squeeze/value", "/user/hand/right/input/squeeze/value"));
  ("vive", ("/user/hand/left/input/squeeze/click", "/user/hand/right/input/squeeze/click"));
  ("wmr", ("/user/hand/left/input/squeeze/click", "/user/hand/right/input/squeeze/click")) ].

Definition JOYSTICK_PATHS : gmap string (string * string) := list_to_map [
  ("index", ("/user/hand/left/input/thumbstick", "/user/hand/right/input/thumbstick"));
  ("oculus", ("/user/hand/left/input/thumbstick", "/user/hand/right/input/thumbstick"));
  ("vive", ("/user/hand/left/input/trackpad", "/user/hand/right/input/trackpad"));
  ("wmr", ("/user/hand/left/input/thumbstick", "/user/hand/right/input/thumbstick")) ].

Definition BUTTON_A_PATHS : gmap string (string * string) := list_to_map [
  ("index", ("/user/hand/left/input/a/click", "/user/hand/right/input/a/click"));
  ("oculus", ("/user/hand/left/input/x/click", "/user/hand/right/input/a/click")) ].

Definition BUTTON_B_PATHS : gmap string (string * string) := list_to_map [
  ("index", ("/user/hand/left/input/b/click", "/user/hand/right/input/b/click"));
  ("oculus", ("/user/hand/left/input/y/click", "/user/hand/right/input/b/click")) ].

Definition BUTTON_A_TOUCH_PATHS : gmap string (string * string) := list_to_map [
  ("index", ("/user/hand/left/input/a/touch", "/user/hand/right/input/a/touch"));
  ("oculus", ("/user/hand/left/input/x/touch", "/user/hand/right/input/a/touch")) ].

Definition BUTTON_B_TOUCH_PATHS : gmap string (string * string) := list_to_map [
  ("index", ("/user/hand/left/input/b/touch", "/user/hand/right/input/b/touch"));
  ("oculus", ("/user/hand/left/input/y/touch", "/user/hand/right/input/b/touch")) ].

(** The seven component-path tables, by global name. *)
Definition component_path_tables : list (string * gmap string (string * string)) := [
  ("TRIGGER_PATHS", TRIGGER_PATHS);
  ("SQUEEZE_PATHS", SQUEEZE_PATHS);
  ("JOYSTICK_PATHS", JOYSTICK_PATHS);
  ("BUTTON_A_PATHS", BUTTON_A_PATHS);
  ("BUTTON_B_PATHS", BUTTON_B_PATHS);
  ("BUTTON_A_TOUCH_PATHS", BUTTON_A_TOUCH_PATHS);
  ("BUTTON_B_TOUCH_PATHS", BUTTON_B_TOUCH_PATHS) ].

(** Executing the eight assignments of lines 16-65, in order. *)
Definition module_load : Py unit :=
  store_global "PROFILES" (ProfileDict PROFILES) ;;
  for_each component_path_tables (fun '(name, d) => store_global name (PathDict d)).

(** Reading a global that is used as a dictionary. *)
Definition load_profile_dict (name : string) : Py (gmap string string) :=
  o <- load_global name ;;
  match o with
  | ProfileDict d => ret d
  | PathDict _ => raise TypeError
  end.

Definition load_path_dict (name : string) : Py (gmap string (string * string)) :=
  o <- load_global name ;;
  match o with
  | PathDict d => ret d
  | ProfileDict _ => raise TypeError
  end.

(** [d[key]] on a dictionary *)
Definition subscript {V} (d : gmap string V) (key : string) : Py V :=
  match d !! key with
  | Some v => ret v
  | None => raise (KeyError key)
  end.

(** [d[key]] on a dictionary kept in insertion order *)
Fixpoint ordered_subscript {V} (d : list (string * V)) (key : string) : Py V :=
  match d with
  | [] => raise (KeyError key)
  | (k, v) :: rest => if String.eqb k key then ret v else ordered_subscript rest key
  end.

(** [a[i]] on a ctypes array *)
Definition array_subscript {A} (a : list A) (i : nat) : Py A :=
  match nth_error a i with
  | Some v => ret v
  | None => raise IndexError
  end.

(** [for path in paths] over a 2-tuple *)
Definition tuple_items (paths : string * string) : list string :=
  [fst paths; snd paths].

(** ** create_action (lines 68-79) *)

(** The size of the [action_name] field of [xr.ActionCreateInfo], in bytes. *)
Definition XR_MAX_ACTION_NAME_SIZE : nat := 64.

(** [xr.ActionCreateInfo(...)] stores the name in its fixed-size field and
    raises [ValueError] for a longer one, before [xr.create_action] is
    called.  The localized name of an ASCII name has the same length and
    always fits its 128-byte field. *)
Definition create_action (action_set : ActionSet) (action_type : ActionType)
    (name : string) (hand_paths : list Path) : Py Action :=
  if (XR_MAX_ACTION_NAME_SIZE <? String.length name)%nat then raise ValueError
  else
    emit (create_action_call action_type name
            (title (replace_char "_" " " name)) (length hand_paths)) ;;
    ret (ActionHandle action_type name).

(** ** suggest_bindings (lines 82-98) *)

(** [if paths:] is false for [None] and for an empty sequence. *)
Definition truthy (paths : option (list string)) : bool :=
  match paths with
  | Some (_ :: _) => true
  | _ => false
  end.

(** The inner loop of lines 87-88, appending to [bindings_list]. *)
Fixpoint append_bindings (instance : XrInstance) (action : Action)
    (paths : list string) (bindings_list : list (Action * Path))
  : Py (list (Action * Path)) :=
  match paths with
  | [] => ret bindings_list
  | path :: rest =>
      p <- string_to_path instance path ;;
      append_bindings instance action rest (bindings_list ++ [(action, p)])
  end.

(** The outer loop of lines 85-88. *)
Fixpoint build_bindings (instance : XrInstance)
    (action_path_pairs : list (Action * option (list string)))
    (bindings_list : list (Action * Path)) : Py (list (Action * Path)) :=
  match action_path_pairs with
  | [] => ret bindings_list
  | (action, paths) :: rest =>
      bl <- (if truthy paths
             then append_bindings instance action (default [] paths) bindings_list
             else ret bindings_list) ;;
      build_bindings instance rest bl
  end.

Definition suggest_bindings (instance : XrInstance) (profile_name : string)
    (action_path_pairs : list (Action * option (list string))) : Py unit :=
  bindings_list <- build_bindings instance action_path_pairs [] ;;
  match bindings_list with
  | [] => ret tt
  | _ :: _ =>
      profiles <- load_profile_dict "PROFILES" ;;
      profile <- subscript profiles profile_name ;;
      interaction_profile <- string_to_path instance profile ;;
      emit (suggest_interaction_profile_bindings_call interaction_profile
              (length bindings_list) bindings_list)
  end.

(** ** get_state (lines 101-114) *)

Definition get_state (session : Session) (action : Action)
    (action_type : ActionType) (hand_path : Path) : Py pyvalue :=
  try_except
    (match action_type with
     | FLOAT_INPUT =>
         state <- get_action_state_float session action hand_path ;;
         ret (if is_active state then PyFloat (current_state state) else PyNone)
     | BOOLEAN_INPUT =>
         state <- get_action_state_boolean session action hand_path ;;
         ret (if is_active state then PyInt (c_uint32 (current_state state))
              else PyNone)
     | VECTOR2F_INPUT =>
         state <- get_action_state_vector2f session action hand_path ;;
         ret (if is_active state
              then PyTuple (x (current_state state)) (y (current_state state))
              else PyNone)
     | OTHER_ACTION_TYPE _ => ret PyNone
     end)
    (fun _ => ret PyNone).

(** ** Main program (lines 118-213) *)

(** The frames [context.frame_loop()] yields: for each one, the session
    state the script reads from the context and the answers the session
    gives to that frame's queries. *)
Record frame := { session_state : SessionState; session : Session }.

Definition newline : string := String "010" "".
Definition separator : string := times "=" 120.
Definition warning : string :=
  newline +:+ "Warning: Session never reached FOCUSED state.".

(** The action type handed to [get_state], chosen by name (lines 180-184). *)
Definition polled_type (name : string) : ActionType :=
  if existsb (String.eqb name) ["trigger"; "squeeze"] then FLOAT_INPUT
  else if String.eqb name "joystick" then VECTOR2F_INPUT
  else BOOLEAN_INPUT.

(** One labelled value of the output line (lines 193-201).  The [else]
    of line 198 takes every value that is neither a tuple nor a [bool]: a
    float, and also an [int], which the [.3f] format converts to a float. *)
Definition format_part (name : string) (value : pyvalue) : string :=
  match value with
  | PyTuple v0 v1 =>
      name +:+ " [(" +:+ format_f true 2 v0 +:+ "," +:+ format_f true 2 v1 +:+ ")]"
  | PyBool b => name +:+ " [" +:+ str_bool b +:+ "]"
  | PyInt n => name +:+ " [" +:+ format_f false 3 (float_of_int n) +:+ "]"
  | PyFloat v => name +:+ " [" +:+ format_f false 3 v +:+ "]"
  | PyNone => name +:+ " [---]"
  end.

(** The body of the loop over the two hands (lines 176-203). *)
Definition poll_hand (session : Session) (actions : list (string * Action))
    (hand_paths : list Path) (hand_idx : nat) (hand_name : string) : Py unit :=
  states <- comprehension actions (fun '(name, action) =>
              hand_path <- array_subscript hand_paths hand_idx ;;
              value <- get_state session action (polled_type name) hand_path ;;
              ret (name, value)) ;;
  let parts :=
    ljust 6 hand_name :: map (fun '(name, value) => format_part name value) states in
  print (join "   " parts).

Definition enumerate {A} (l : list A) : list (nat * A) :=
  combine (seq 0 (length l)) l.

(** What a focused frame does after setting the flag (lines 170-203). *)
Definition poll_frame (context : frame) (actions : list (string * Action))
    (hand_paths : list Path) : Py unit :=
  sync_actions ;;
  for_each (enumerate ["LEFT"; "RIGHT"]) (fun '(hand_idx, hand_name) =>
    poll_hand (session context) actions hand_paths hand_idx hand_name).

(** One iteration up to and including the sleep (lines 167-205); the
    result is the new value of [session_was_focused]. *)
Definition frame_iteration (context : frame) (actions : list (string * Action))
    (hand_paths : list Path) (session_was_focused : bool) : Py bool :=
  focused <- (if SessionState_eqb (session_state context) FOCUSED
              then poll_frame context actions hand_paths ;; ret true
              else ret session_was_focused) ;;
  sleep half ;;
  ret focused.

(** The [for frame_index, frame_state in enumerate(...)] loop (lines
    166-209), from [frame_index] on. *)
Fixpoint frame_loop (actions : list (string * Action)) (hand_paths : list Path)
    (frame_index : nat) (frames : list frame) (session_was_focused : bool)
  : Py bool :=
  match frames with
  | [] => ret session_was_focused
  | context :: rest =>
      focused <- frame_iteration context actions hand_paths session_was_focused ;;
      if (10 <=? frame_index)%nat then ret focused
      else print "" ;; frame_loop actions hand_paths (S frame_index) rest focused
  end.

(** The argument list of lines 149-157. *)
Definition profile_bindings (actions : list (string * Action)) (profile : string)
  : Py (list (Action * option (list string))) :=
  comprehension
    [ ("trigger", "TRIGGER_PATHS"); ("squeeze", "SQUEEZE_PATHS");
      ("joystick", "JOYSTICK_PATHS"); ("button_a", "BUTTON_A_PATHS");
      ("button_b", "BUTTON_B_PATHS"); ("button_a_touch", "BUTTON_A_TOUCH_PATHS");
      ("button_b_touch", "BUTTON_B_TOUCH_PATHS") ]
    (fun '(action_name, table_name) =>
       action <- ordered_subscript actions action_name ;;
       table <- load_path_dict table_name ;;
       ret (action, tuple_items <$> (table !! profile))).

(** Lines 124-158: the hand paths, the actions, the suggested bindings. *)
Definition setup : Py (list Path * list (string * Action)) :=
  left <- string_to_path context_instance "/user/hand/left" ;;
  right <- string_to_path context_instance "/user/hand/right" ;;
  let hand_paths := [left; right] in
  actions <- comprehension
    [ ("trigger", FLOAT_INPUT); ("squeeze", FLOAT_INPUT);
      ("joystick", VECTOR2F_INPUT); ("button_a", BOOLEAN_INPUT);
      ("button_b", BOOLEAN_INPUT); ("button_a_touch", BOOLEAN_INPUT);
      ("button_b_touch", BOOLEAN_INPUT) ]
    (fun '(name, action_type) =>
       action <- create_action default_action_set action_type name hand_paths ;;
       ret (name, action)) ;;
  for_each ["khr"; "index"; "oculus"; "vive"; "wmr"] (fun profile =>
    pairs <- profile_bindings actions profile ;;
    suggest_bindings context_instance profile pairs) ;;
  ret (hand_paths, actions).

Definition main (frames : list frame) : Py unit :=
  context <- setup ;;
  let '(hand_paths, actions) := context in
  print (newline +:+ separator) ;;
  print "Controller Button States" ;;
  print separator ;;
  session_was_focused <- frame_loop actions hand_paths 0 frames false ;;
  (if negb session_was_focused then print warning else ret tt) ;;
  print separator.

(** The whole script: the module-level assignments, then the main program. *)
Definition script (frames : list frame) : Py unit :=
  module_load ;; main frames.

(** ** What a run is observed by *)

Definition is_sleep (e : event) : bool :=
  match e with sleep_call _ => true | _ => false end.

Definition is_print (e : event) : bool :=
  match e with print_call _ => true | _ => false end.

Definition is_suggest (e : event) : bool :=
  match e with suggest_interaction_profile_bindings_call _ _ _ => true | _ => false end.

Definition is_sync (e : event) : bool :=
  match e with sync_actions_call => true | _ => false end.

Definition is_warning (e : event) : bool :=
  match e with print_call text => String.eqb text warning | _ => false end.

(** A printed line that reports one hand. *)
Definition is_hand_line (e : event) : bool :=
  match e with
  | print_call text => String.prefix "LEFT  " text || String.prefix "RIGHT " text
  | _ => false
  end.

Definition count (p : event -> bool) (t : list event) : nat :=
  length (List.filter p t).

Definition focused (context : frame) : bool :=
  SessionState_eqb (session_state context) FOCUSED.

(** Does the runtime call that [get_state] makes for this type raise? *)
Definition raises {A} (r : outcome A) : bool :=
  match r with Raised _ => true | Returned _ => false end.

Definition query_raises (session : Session) (action : Action)
    (action_type : ActionType) (hand_path : Path) : bool :=
  match action_type with
  | FLOAT_INPUT => raises (float_result session action hand_path)
  | BOOLEAN_INPUT => raises (boolean_result session action hand_path)
  | VECTOR2F_INPUT => raises (vector2f_result session action hand_path)
  | OTHER_ACTION_TYPE _ => false
  end.

(** Does it return a state whose [is_active] is false? *)
Definition inactive {T} (r : outcome (ActionState T)) : bool :=
  match r with Returned state => negb (is_active state) | Raised _ => false end.

Definition query_inactive (session : Session) (action : Action)
    (action_type : ActionType) (hand_path : Path) : bool :=
  match action_type with
  | FLOAT_INPUT => inactive (float_result session action hand_path)
  | BOOLEAN_INPUT => inactive (boolean_result session action hand_path)
  | VECTOR2F_INPUT => inactive (vector2f_result session action hand_path)
  | OTHER_ACTION_TYPE _ => false
  end.

(** The value and the calls of [get_state], read off the runtime's answer. *)
Definition answer_value {T} (wrap : T -> pyvalue) (r : outcome (ActionState T)) : pyvalue :=
  match r with
  | Returned state => if is_active state then wrap (current_state state) else PyNone
  | Raised _ => PyNone
  end.

Definition get_state_value (session : Session) (action : Action)
    (action_type : ActionType) (hand_path : Path) : pyvalue :=
  match action_type with
  | FLOAT_INPUT => answer_value PyFloat (float_result session action hand_path)
  | BOOLEAN_INPUT =>
      answer_value (fun v => PyInt (c_uint32 v)) (boolean_result session action hand_path)
  | VECTOR2F_INPUT =>
      answer_value (fun v => PyTuple (x v) (y v)) (vector2f_result session action hand_path)
  | OTHER_ACTION_TYPE _ => PyNone
  end.

Definition get_state_calls (action : Action) (action_type : ActionType)
    (hand_path : Path) : list event :=
  match action_type with
  | OTHER_ACTION_TYPE _ => []
  | _ => [get_action_state_call action_type action hand_path]
  end.

(** The line one hand prints and the queries made for it. *)
Definition hand_states (session : Session) (actions : list (string * Action))
    (hand_path : Path) : list (string * pyvalue) :=
  map (fun '(name, action) =>
         (name, get_state_value session action (polled_type name) hand_path)) actions.

Definition hand_queries (actions : list (string * Action)) (hand_path : Path)
  : list event :=
  flat_map (fun '(name, action) =>
              get_state_calls action (polled_type name) hand_path) actions.

Definition hand_line (hand_name : string) (states : list (string * pyvalue)) : string :=
  join "   " (ljust 6 hand_name :: map (fun '(name, value) => format_part name value) states).

Definition hand_trace (session : Session) (actions : list (string * Action))
    (hand_name : string) (hand_path : Path) : list event :=
  hand_queries actions hand_path
  ++ [print_call (hand_line hand_name (hand_states session actions hand_path))].

(** The events of one iteration, up to its sleep. *)
Definition iteration_trace (context : frame) (actions : list (string * Action))
    (left right : Path) : list event :=
  (if focused context
   then sync_actions_call
        :: hand_trace (session context) actions "LEFT" left
        ++ hand_trace (session context) actions "RIGHT" right
   else [])
  ++ [sleep_call half].

(** The events of the loop, and the flag it leaves. *)
Fixpoint loop_trace (actions : list (string * Action)) (left right : Path)
    (frame_index : nat) (frames : list frame) : list event :=
  match frames with
  | [] => []
  | context :: rest =>
      iteration_trace context actions left right
      ++ (if (10 <=? frame_index)%nat then []
          else print_call "" :: loop_trace actions left right (S frame_index) rest)
  end.

(** The frames the loop gets to, starting at [frame_index]. *)
Definition polled_frames (frame_index : nat) (frames : list frame) : list frame :=
  firstn (S (10 - frame_index)) frames.

(** The bindings [suggest_bindings] builds from its argument. *)
Definition bindings_of (action_path_pairs : list (Action * option (list string)))
  : list (Action * Path) :=
  flat_map (fun '(action, paths) =>
              map (fun path => (action, PathOf path)) (default [] paths))
           action_path_pairs.

Definition binding_path_calls (action_path_pairs : list (Action * option (list string)))
  : list event :=
  flat_map (fun '(action, paths) => map string_to_path_call (default [] paths))
           action_path_pairs.

(** Digits and the shape of a fixed-point number. *)
Definition is_digit (c : ascii) : bool :=
  let n := nat_of_ascii c in (48 <=? n)%nat && (n <=? 57)%nat.

Fixpoint all_digits (s : string) : bool :=
  match s with
  | EmptyString => true
  | String c rest => is_digit c && all_digits rest
  end.

(** [sign int . frac] with [prec] digits after the point. *)
Definition fixed_point (signs : list string) (prec : nat) (s : string) : Prop :=
  exists sign int frac,
    s = sign +:+ int +:+ "." +:+ frac
    /\ In sign signs
    /\ int <> "" /\ all_digits int = true
    /\ all_digits frac = true /\ String.length frac = prec.

(** The namespace after the module-level assignments. *)
Definition loaded_globals : namespace :=
  <["PROFILES" := ProfileDict PROFILES]>
    (list_to_map (map (fun '(name, d) => (name, PathDict d)) component_path_tables)).

(** A path under [/user/hand/<hand>/input/]. *)
Definition input_path_of (hand : string) (path : string) : bool :=
  String.prefix ("/user/hand/" +:+ hand +:+ "/input/") path.

(** ** Sample runtime answers and frame streams *)

Definition inactive_session : Session :=
  {| float_result := fun _ _ =>
       Returned {| current_state := S754_zero false; is_active := false |};
     boolean_result := fun _ _ =>
       Returned {| current_state := 0%Z; is_active := false |};
     vector2f_result := fun _ _ =>
       Returned {| current_state := {| x := S754_zero false; y := S754_zero false |};
                   is_active := false |} |}.

Definition failing_session : Session :=
  {| float_result := fun _ _ => Raised (XrError (-1));
     boolean_result := fun _ _ => Raised (XrError (-1));
     vector2f_result := fun _ _ => Raised (XrError (-1)) |}.

Definition active_session : Session :=
  {| float_result := fun _ _ =>
       Returned {| current_state := half; is_active := true |};
     boolean_result := fun _ _ =>
       Returned {| current_state := 1%Z; is_active := true |};
     vector2f_result := fun _ _ =>
       Returned {| current_state := {| x := half; y := S754_finite true 1 (-2) |};
                   is_active := true |} |}.

Definition focused_frame : frame :=
  {| session_state := FOCUSED; session := active_session |}.

Definition unfocused_frame : frame :=
  {| session_state := OTHER_SESSION_STATE 3; session := active_session |}.

Definition trigger : Action := ActionHandle FLOAT_INPUT "trigger".
Definition left_hand : Path := PathOf "/user/hand/left".
Definition right_hand : Path := PathOf "/user/hand/right".

(** The actions dictionary of lines 130-142, in insertion order. *)
Definition script_actions : list (string * Action) := [
  ("trigger", ActionHandle FLOAT_INPUT "trigger");
  ("squeeze", ActionHandle FLOAT_INPUT "squeeze");
  ("joystick", ActionHandle VECTOR2F_INPUT "joystick");
  ("button_a", ActionHandle BOOLEAN_INPUT "button_a");
  ("button_b", ActionHandle BOOLEAN_INPUT "button_b");
  ("button_a_touch", ActionHandle BOOLEAN_INPUT "button_a_touch");
  ("button_b_touch", ActionHandle BOOLEAN_INPUT "button_b_touch") ].

(** The events of lines 124-158 and of the header, once the globals are
    loaded. *)
Definition setup_trace : list event := run_trace (setup loaded_globals).

Definition header_trace : list event :=
  [ print_call (newline +:+ separator);
    print_call "Controller Button States";
    print_call separator ].

(** The events of the script's frame loop. *)
Definition script_loop_trace (frames : list frame) : list event :=
  loop_trace script_actions left_hand right_hand 0 frames.

(** The events after the loop (lines 211-213). *)
Definition closing_trace (session_was_focused : bool) : list event :=
  (if negb session_was_focused then [print_call warning] else [])
  ++ [print_call separator].

(** The suggest calls of a trace, as (profile path, count, bindings). *)
Definition suggested (t : list event)
  : list (Path * nat * list (Action * Path)) :=
  flat_map (fun e =>
    match e with
    | suggest_interaction_profile_bindings_call p n bs => [(p, n, bs)]
    | _ => []
    end) t.

(** The number of paths in the path groups that are not [None]. *)
Definition binding_count (action_path_pairs : list (Action * option (list string)))
  : nat :=
  list_sum (map (fun '(_, paths) =>
                   match paths with Some ps => length ps | None => 0%nat end)
                action_path_pairs).

(** What [suggest_bindings] does once its list is built (lines 90-98). *)
Definition suggest_tail (g : namespace) (profile_name : string)
    (bindings_list : list (Action * Path)) : outcome unit * list event :=
  match bindings_list with
  | [] => (Returned tt, [])
  | _ :: _ =>
      match g !! "PROFILES" with
      | None => (Raised (NameError "PROFILES"), [])
      | Some (PathDict _) => (Raised TypeError, [])
      | Some (ProfileDict d) =>
          match d !! profile_name with
          | None => (Raised (KeyError profile_name), [])
          | Some profile =>
              (Returned tt,
               [ string_to_path_call profile;
                 suggest_interaction_profile_bindings_call (PathOf profile)
                   (length bindings_list) bindings_list ])
          end
      end
  end.

(** A printed empty line, and a state query. *)
Definition is_blank (e : event) : bool :=
  match e with print_call text => String.eqb text "" | _ => false end.

Definition is_query (e : event) : bool :=
  match e with get_action_state_call _ _ _ => true | _ => false end.

(** The query the loop makes for one entry of the actions dictionary. *)
Definition query_of (hand_path : Path) (entry : string * Action) : event :=
  get_action_state_call (polled_type (fst entry)) (snd entry) hand_path.



(** A path group that [if paths:] accepts. *)
Definition has_paths (pair : Action * option (list string)) : bool :=
  truthy (snd pair).

(** A predicate that rejects every state query. *)
Definition ignores_queries (p : event -> bool) : Prop :=
  forall kind action hand_path, p (get_action_state_call kind action hand_path) = false.

(** A fragment that leaves the module globals as it found them, however
    it ends. *)
Definition preserves_globals {A} (m : Py A) : Prop :=
  forall g, run_globals (m g) = g.

(** A fragment that cannot end in an exception. *)
Definition never_raises {A} (m : Py A) : Prop :=
  forall g, exists a, run_outcome (m g) = Returned a.

(** ** The monad: how fragments run *)

Lemma bind_returned {A B} (m : Py A) (k : A -> Py B) g a g1 t1 :
  m g = (Returned a, g1, t1) ->
  bind m k g = (run_outcome (k a g1), run_globals (k a g1), t1 ++ run_trace (k a g1)).
Proof.
  intros Hm. unfold bind. rewrite Hm.
  destruct (k a g1) as [[o g2] t2]. reflexivity.
Qed.

Lemma bind_raised {A B} (m : Py A) (k : A -> Py B) g e g1 t1 :
  m g = (Raised e, g1, t1) -> bind m k g = (Raised e, g1, t1).
Proof. intros Hm. unfold bind. rewrite Hm. reflexivity. Qed.

Lemma bind_run {A B} (m : Py A) (k : A -> Py B) g a g1 t1 o g2 t2 :
  m g = (Returned a, g1, t1) -> k a g1 = (o, g2, t2) ->
  bind m k g = (o, g2, t1 ++ t2).
Proof. intros Hm Hk. unfold bind. rewrite Hm, Hk. reflexivity. Qed.


(** *** Frame lemmas: which fragments leave the globals alone *)

Create HintDb py_frame.

Lemma preserves_ret {A} (a : A) : preserves_globals (ret a).
Proof. intros g. reflexivity. Qed.

Lemma preserves_raise {A} (e : exn) : preserves_globals (@raise A e).
Proof. intros g. reflexivity. Qed.

Lemma preserves_emit (e : event) : preserves_globals (emit e).
Proof. intros g. reflexivity. Qed.

Lemma preserves_load_global name : preserves_globals (load_global name).
Proof. intros g. unfold load_global. destruct (g !! name); reflexivity. Qed.

Lemma preserves_bind {A B} (m : Py A) (k : A -> Py B) :
  preserves_globals m -> (forall a, preserves_globals (k a)) ->
  preserves_globals (bind m k).
Proof.
  intros Hm Hk g. unfold bind.
  specialize (Hm g). destruct (m g) as [[[a|e] g1] t1]; cbn in Hm; subst g1.
  - specialize (Hk a g). destruct (k a g) as [[o g2] t2]. exact Hk.
  - reflexivity.
Qed.

Lemma preserves_try_except {A} (body : Py A) (handler : exn -> Py A) :
  preserves_globals body -> (forall e, preserves_globals (handler e)) ->
  preserves_globals (try_except body handler).
Proof.
  intros Hb Hh g. unfold try_except.
  specialize (Hb g). destruct (body g) as [[[a|e] g1] t1]; cbn in Hb; subst g1.
  - reflexivity.
  - specialize (Hh e g). destruct (handler e g) as [[o g2] t2]. exact Hh.
Qed.

Lemma preserves_for_each {A} (xs : list A) (body : A -> Py unit) :
  (forall a, preserves_globals (body a)) -> preserves_globals (for_each xs body).
Proof.
  intros Hb. induction xs as [|a rest IH]; cbn.
  - apply preserves_ret.
  - apply preserves_bind; [apply Hb | intros _; exact IH].
Qed.

Lemma preserves_comprehension {A B} (xs : list A) (f : A -> Py B) :
  (forall a, preserves_globals (f a)) -> preserves_globals (comprehension xs f).
Proof.
  intros Hf. induction xs as [|a rest IH]; cbn.
  - apply preserves_ret.
  - apply preserves_bind; [apply Hf | intros b].
    apply preserves_bind; [exact IH | intros bs; apply preserves_ret].
Qed.

Lemma preserves_match_outcome {A} (r : outcome A) :
  preserves_globals (match r with Returned a => ret a | Raised e => raise e end).
Proof. destruct r; [apply preserves_ret | apply preserves_raise]. Qed.

Lemma preserves_if {A} (b : bool) (m1 m2 : Py A) :
  preserves_globals m1 -> preserves_globals m2 ->
  preserves_globals (if b then m1 else m2).
Proof. destruct b; auto. Qed.

#[export] Hint Resolve preserves_ret preserves_raise preserves_emit
  preserves_load_global preserves_match_outcome : py_frame.
#[export] Hint Extern 2 (preserves_globals (bind _ _)) =>
  apply preserves_bind; [ | intros ? ] : py_frame.
#[export] Hint Extern 2 (preserves_globals (try_except _ _)) =>
  apply preserves_try_except; [ | intros ? ] : py_frame.
#[export] Hint Extern 2 (preserves_globals (for_each _ _)) =>
  apply preserves_for_each; intros ? : py_frame.
#[export] Hint Extern 2 (preserves_globals (comprehension _ _)) =>
  apply preserves_comprehension; intros ? : py_frame.
#[export] Hint Extern 3 (preserves_globals (if _ then _ else _)) =>
  apply preserves_if : py_frame.
#[export] Hint Extern 3 (preserves_globals (match ?v with _ => _ end)) =>
  destruct v : py_frame.

Ltac frame := repeat (cbv beta; auto 8 with py_frame).

Lemma preserves_string_to_path instance s :
  preserves_globals (string_to_path instance s).
Proof. unfold string_to_path. frame. Qed.

Lemma preserves_runtime_query {A} ev (r : outcome A) :
  preserves_globals (runtime_query ev r).
Proof. unfold runtime_query. frame. Qed.

Lemma preserves_subscript {V} (d : gmap string V) key :
  preserves_globals (subscript d key).
Proof. unfold subscript. destruct (d !! key); frame. Qed.

Lemma preserves_ordered_subscript {V} (d : list (string * V)) key :
  preserves_globals (ordered_subscript d key).
Proof.
  induction d as [|[k v] rest IH]; cbn; [frame|].
  destruct (String.eqb k key); [frame | exact IH].
Qed.

Lemma preserves_array_subscript {A} (a : list A) i :
  preserves_globals (array_subscript a i).
Proof. unfold array_subscript. destruct (nth_error a i); frame. Qed.

Lemma preserves_load_profile_dict name : preserves_globals (load_profile_dict name).
Proof. unfold load_profile_dict. frame. Qed.

Lemma preserves_load_path_dict name : preserves_globals (load_path_dict name).
Proof. unfold load_path_dict. frame. Qed.

#[export] Hint Resolve preserves_string_to_path preserves_runtime_query
  preserves_subscript preserves_ordered_subscript preserves_array_subscript
  preserves_load_profile_dict preserves_load_path_dict : py_frame.

Lemma preserves_create_action action_set action_type name hand_paths :
  preserves_globals (create_action action_set action_type name hand_paths).
Proof. unfold create_action. frame. Qed.

Lemma preserves_append_bindings instance action paths acc :
  preserves_globals (append_bindings instance action paths acc).
Proof.
  revert acc. induction paths as [|p rest IH]; intros acc; cbn; frame.
Qed.

Lemma preserves_build_bindings instance pairs acc :
  preserves_globals (build_bindings instance pairs acc).
Proof.
  revert acc. induction pairs as [|[a ps] rest IH]; intros acc; cbn; [frame|].
  apply preserves_bind; [|intros bl; apply IH].
  apply preserves_if; [apply preserves_append_bindings | frame].
Qed.

Lemma preserves_suggest_bindings instance profile_name pairs :
  preserves_globals (suggest_bindings instance profile_name pairs).
Proof.
  unfold suggest_bindings.
  apply preserves_bind; [apply preserves_build_bindings | intros bl].
  destruct bl; frame.
Qed.

Lemma preserves_get_state session action action_type hand_path :
  preserves_globals (get_state session action action_type hand_path).
Proof.
  unfold get_state, get_action_state_float, get_action_state_boolean,
    get_action_state_vector2f.
  apply preserves_try_except; [|intros e; frame].
  destruct action_type; frame.
Qed.

#[export] Hint Resolve preserves_create_action preserves_suggest_bindings
  preserves_get_state : py_frame.

Lemma preserves_poll_hand session actions hand_paths hand_idx hand_name :
  preserves_globals (poll_hand session actions hand_paths hand_idx hand_name).
Proof.
  unfold poll_hand, print.
  apply preserves_bind; [|intros states; frame].
  apply preserves_comprehension. intros [name action]. frame.
Qed.

Lemma preserves_poll_frame context actions hand_paths :
  preserves_globals (poll_frame context actions hand_paths).
Proof.
  unfold poll_frame, sync_actions.
  apply preserves_bind; [frame | intros _].
  apply preserves_for_each. intros [hand_idx hand_name].
  apply preserves_poll_hand.
Qed.

Lemma preserves_frame_iteration context actions hand_paths flag :
  preserves_globals (frame_iteration context actions hand_paths flag).
Proof.
  unfold frame_iteration, sleep.
  apply preserves_bind; [|intros b; frame].
  apply preserves_if; [|frame].
  apply preserves_bind; [apply preserves_poll_frame | intros _; frame].
Qed.

Lemma preserves_frame_loop actions hand_paths frame_index frames flag :
  preserves_globals (frame_loop actions hand_paths frame_index frames flag).
Proof.
  revert frame_index flag.
  induction frames as [|context rest IH]; intros frame_index flag; cbn; [frame|].
  apply preserves_bind; [apply preserves_frame_iteration | intros b].
  apply preserves_if; [frame|].
  apply preserves_bind; [unfold print; frame | intros _; apply IH].
Qed.

Lemma preserves_profile_bindings actions profile :
  preserves_globals (profile_bindings actions profile).
Proof.
  unfold profile_bindings.
  apply preserves_comprehension. intros [action_name table_name]. frame.
Qed.

Lemma preserves_setup : preserves_globals setup.
Proof.
  unfold setup.
  apply preserves_bind; [frame | intros left].
  apply preserves_bind; [frame | intros right].
  apply preserves_bind.
  { apply preserves_comprehension. intros [name action_type]. frame. }
  intros actions.
  apply preserves_bind; [|intros _; frame].
  apply preserves_for_each. intros profile.
  apply preserves_bind; [apply preserves_profile_bindings | intros pairs; frame].
Qed.

Lemma preserves_main frames : preserves_globals (main frames).
Proof.
  unfold main, print.
  apply preserves_bind; [apply preserves_setup | intros [hand_paths actions]].
  do 3 (apply preserves_bind; [frame | intros _]).
  apply preserves_bind; [apply preserves_frame_loop | intros flag].
  frame.
Qed.

(** *** The module-level assignments *)

Lemma module_load_run :
  module_load ∅ = (Returned tt, loaded_globals, []).
Proof. vm_compute. reflexivity. Qed.

Lemma loaded_globals_bindings :
  loaded_globals !! "PROFILES" = Some (ProfileDict PROFILES)
  /\ Forall (fun '(name, d) => loaded_globals !! name = Some (PathDict d))
            component_path_tables.
Proof.
  split; [vm_compute; reflexivity|].
  unfold component_path_tables.
  repeat (constructor; [vm_compute; reflexivity|]). constructor.
Qed.

(** *** [get_state] and the line of one hand *)

(** [get_state] always returns: its value and its calls are those read
    off the runtime's answer, and the globals are untouched. *)
Lemma get_state_run session action action_type hand_path g :
  get_state session action action_type hand_path g =
    (Returned (get_state_value session action action_type hand_path), g,
     get_state_calls action action_type hand_path).
Proof.
  unfold get_state, get_state_value, get_state_calls, try_except, bind,
    get_action_state_float, get_action_state_boolean, get_action_state_vector2f.
  destruct action_type; cbn.
  - destruct (float_result session action hand_path) as [state|e]; reflexivity.
  - destruct (boolean_result session action hand_path) as [state|e]; reflexivity.
  - destruct (vector2f_result session action hand_path) as [state|e]; reflexivity.
  - reflexivity.
Qed.

Lemma get_state_never_raises session action action_type hand_path :
  never_raises (get_state session action action_type hand_path).
Proof. intros g. rewrite get_state_run. eexists. reflexivity. Qed.

Lemma hand_comprehension_run session actions hand_paths hand_idx hand_path g :
  nth_error hand_paths hand_idx = Some hand_path ->
  comprehension actions (fun '(name, action) =>
      hand_path <- array_subscript hand_paths hand_idx ;;
      value <- get_state session action (polled_type name) hand_path ;;
      ret (name, value)) g
  = (Returned (hand_states session actions hand_path), g,
     hand_queries actions hand_path).
Proof.
  intros Hidx. induction actions as [|[name action] rest IH]; [reflexivity|].
  cbn [comprehension hand_states hand_queries map flat_map].
  erewrite bind_run; [reflexivity | | ].
  - unfold array_subscript. rewrite Hidx.
    erewrite bind_run; [| reflexivity |].
    2:{ erewrite bind_run; [| apply get_state_run | reflexivity]. reflexivity. }
    cbn. rewrite app_nil_r. reflexivity.
  - erewrite bind_run; [| apply IH | reflexivity].
    rewrite app_nil_r. reflexivity.
Qed.

Lemma poll_hand_run session actions hand_paths hand_idx hand_name hand_path g :
  nth_error hand_paths hand_idx = Some hand_path ->
  poll_hand session actions hand_paths hand_idx hand_name g
  = (Returned tt, g, hand_trace session actions hand_name hand_path).
Proof.
  intros Hidx. unfold poll_hand.
  erewrite bind_run; [| apply hand_comprehension_run; eassumption | reflexivity].
  reflexivity.
Qed.

Lemma poll_frame_run context actions left right g :
  poll_frame context actions [left; right] g
  = (Returned tt, g,
     sync_actions_call
       :: hand_trace (session context) actions "LEFT" left
       ++ hand_trace (session context) actions "RIGHT" right).
Proof.
  unfold poll_frame. cbn [enumerate length seq combine for_each].
  erewrite bind_run; [| reflexivity |].
  2:{ erewrite bind_run; [| apply (poll_hand_run _ _ _ _ _ left); reflexivity |].
      2:{ erewrite bind_run;
            [| apply (poll_hand_run _ _ _ _ _ right); reflexivity | reflexivity].
          reflexivity. }
      reflexivity. }
  cbn. rewrite app_nil_r. reflexivity.
Qed.

Lemma frame_iteration_run context actions left right flag g :
  frame_iteration context actions [left; right] flag g
  = (Returned (focused context || flag), g,
     iteration_trace context actions left right).
Proof.
  unfold frame_iteration, iteration_trace, focused.
  destruct (SessionState_eqb (session_state context) FOCUSED).
  - erewrite bind_run; [| | reflexivity].
    2:{ erewrite bind_run; [| apply poll_frame_run | reflexivity]. reflexivity. }
    cbn. rewrite !app_nil_r. reflexivity.
  - reflexivity.
Qed.

(** *** The frame loop *)

Lemma frame_loop_run actions left right frame_index frames flag g :
  frame_loop actions [left; right] frame_index frames flag g
  = (Returned (existsb focused (polled_frames frame_index frames) || flag), g,
     loop_trace actions left right frame_index frames).
Proof.
  revert frame_index flag.
  induction frames as [|context rest IH]; intros frame_index flag.
  - reflexivity.
  - cbn [frame_loop loop_trace].
    erewrite bind_run; [reflexivity | apply frame_iteration_run |].
    unfold polled_frames. cbn [firstn existsb].
    destruct (Nat.leb_spec 10 frame_index) as [Hge|Hlt].
    + replace (10 - frame_index)%nat with 0%nat by lia.
      cbn. rewrite orb_false_r. reflexivity.
    + erewrite bind_run; [| reflexivity | apply IH].
      unfold polled_frames.
      replace (10 - frame_index)%nat with (S (10 - S frame_index)) by lia.
      cbn [app]. rewrite orb_assoc, (orb_comm _ (focused context)).
      reflexivity.
Qed.

Lemma setup_run :
  setup loaded_globals
  = (Returned ([left_hand; right_hand], script_actions), loaded_globals, setup_trace).
Proof. vm_compute. reflexivity. Qed.

(** The whole run: the script always returns, leaves the loaded globals,
    and its trace is the setup, the header, the loop and the closing. *)
Lemma script_run frames :
  script frames ∅
  = (Returned tt, loaded_globals,
     setup_trace ++ header_trace ++ script_loop_trace frames
     ++ closing_trace (existsb focused (polled_frames 0 frames))).
Proof.
  unfold script, main, bind. rewrite module_load_run, setup_run.
  cbv beta iota delta [print emit]. rewrite frame_loop_run.
  rewrite orb_false_r. unfold closing_trace, script_loop_trace, header_trace.
  destruct (existsb focused (polled_frames 0 frames)); reflexivity.
Qed.

(** *** Counting events of a trace *)

Lemma count_app p t1 t2 : count p (t1 ++ t2) = (count p t1 + count p t2)%nat.
Proof. unfold count. rewrite List.filter_app, length_app. reflexivity. Qed.

Lemma count_cons p e t :
  count p (e :: t) = ((if p e then 1 else 0) + count p t)%nat.
Proof. unfold count. cbn. destruct (p e); reflexivity. Qed.

Lemma count_nil p : count p [] = 0%nat.
Proof. reflexivity. Qed.

Lemma count_zero_iff p t : count p t = 0%nat <-> forall e, In e t -> p e = false.
Proof.
  induction t as [|e0 rest IH]; [cbn; tauto|].
  rewrite count_cons. split.
  - intros H e [<-|Hin].
    + destruct (p e0); [discriminate|reflexivity].
    + apply IH; [destruct (p e0); [discriminate | exact H] | exact Hin].
  - intros H. rewrite (H e0) by (left; reflexivity).
    apply IH. intros e Hin. apply H. right. exact Hin.
Qed.

Lemma count_pos_iff p t : count p t <> 0%nat <-> exists e, In e t /\ p e = true.
Proof.
  induction t as [|e0 rest IH].
  - cbn. split; [intros H; exfalso; apply H; reflexivity | intros (e & [] & _)].
  - rewrite count_cons. destruct (p e0) eqn:He0.
    + split; [intros _; exists e0; cbn; auto | intros _; cbn; lia].
    + cbn [Nat.add]. rewrite IH. split.
      * intros (e & Hin & He). exists e. cbn. auto.
      * intros (e & [<-|Hin] & He); [congruence | exists e; auto].
Qed.

Lemma count_hand_queries p actions hand_path :
  ignores_queries p -> count p (hand_queries actions hand_path) = 0%nat.
Proof.
  intros Hp. induction actions as [|[name action] rest IH]; [reflexivity|].
  cbn [hand_queries flat_map]. rewrite count_app. fold (hand_queries rest hand_path).
  rewrite IH. unfold get_state_calls.
  destruct (polled_type name); rewrite ?count_cons, ?Hp, ?count_nil; reflexivity.
Qed.

Lemma count_hand_trace p session actions hand_name hand_path :
  ignores_queries p ->
  count p (hand_trace session actions hand_name hand_path)
  = if p (print_call (hand_line hand_name (hand_states session actions hand_path)))
    then 1%nat else 0%nat.
Proof.
  intros Hp. unfold hand_trace.
  rewrite count_app, count_hand_queries, count_cons, count_nil by exact Hp.
  lia.
Qed.

(** *** Strings: what a hand line starts with *)

Lemma append_cons c (s1 s2 : string) : String c s1 +:+ s2 = String c (s1 +:+ s2).
Proof. reflexivity. Qed.

Lemma append_empty_r (s : string) : s +:+ "" = s.
Proof.
  induction s as [|c s IH]; [reflexivity|]. rewrite append_cons, IH. reflexivity.
Qed.

Lemma append_assoc (s1 s2 s3 : string) : (s1 +:+ s2) +:+ s3 = s1 +:+ (s2 +:+ s3).
Proof.
  induction s1 as [|c s1 IH]; [reflexivity|]. rewrite !append_cons, IH. reflexivity.
Qed.

Lemma length_append (s1 s2 : string) :
  String.length (s1 +:+ s2) = (String.length s1 + String.length s2)%nat.
Proof.
  induction s1 as [|c s1 IH]; [reflexivity|].
  rewrite append_cons. cbn [String.length]. rewrite IH. reflexivity.
Qed.

Lemma prefix_append p s : String.prefix p (p +:+ s) = true.
Proof.
  induction p as [|c p IH]; [destruct s; reflexivity|].
  change (String c p +:+ s) with (String c (p +:+ s)).
  cbn [String.prefix]. destruct (ascii_dec c c); [exact IH | congruence].
Qed.

Lemma join_starts sep p rest : exists s, join sep (p :: rest) = p +:+ s.
Proof.
  destruct rest as [|q rest]; cbn.
  - exists "". symmetry. apply append_empty_r.
  - eexists. reflexivity.
Qed.

Lemma hand_line_starts hand_name states :
  String.prefix (ljust 6 hand_name) (hand_line hand_name states) = true.
Proof.
  unfold hand_line.
  destruct (join_starts "   " (ljust 6 hand_name)
              (map (fun '(name, value) => format_part name value) states)) as [s ->].
  apply prefix_append.
Qed.

Lemma hand_line_left_is_hand_line states :
  is_hand_line (print_call (hand_line "LEFT" states)) = true.
Proof.
  cbn [is_hand_line].
  rewrite (hand_line_starts "LEFT" states : String.prefix "LEFT  " _ = true).
  reflexivity.
Qed.

Lemma hand_line_right_is_hand_line states :
  is_hand_line (print_call (hand_line "RIGHT" states)) = true.
Proof.
  cbn [is_hand_line].
  rewrite (hand_line_starts "RIGHT" states : String.prefix "RIGHT " _ = true).
  apply orb_true_r.
Qed.

Lemma hand_line_not_warning e : is_hand_line e = true -> is_warning e = false.
Proof.
  destruct e as [| | | | |text|]; cbn; try reflexivity.
  intros H. destruct (String.eqb_spec text warning) as [->|]; [|reflexivity].
  vm_compute in H. discriminate.
Qed.

(** *** Events of an iteration and of the loop *)

Lemma is_sleep_ignores : ignores_queries is_sleep.
Proof. intros kind action hand_path. reflexivity. Qed.

Lemma is_warning_ignores : ignores_queries is_warning.
Proof. intros kind action hand_path. reflexivity. Qed.

Lemma is_hand_line_ignores : ignores_queries is_hand_line.
Proof. intros kind action hand_path. reflexivity. Qed.

Lemma is_sync_ignores : ignores_queries is_sync.
Proof. intros kind action hand_path. reflexivity. Qed.

Lemma iteration_trace_split context actions left right :
  exists before,
    iteration_trace context actions left right = before ++ [sleep_call half]
    /\ count is_sleep before = 0%nat.
Proof.
  unfold iteration_trace. eexists. split; [reflexivity|].
  destruct (focused context); [|reflexivity].
  rewrite count_cons, count_app, !count_hand_trace by apply is_sleep_ignores.
  reflexivity.
Qed.

Lemma count_sleep_iteration context actions left right :
  count is_sleep (iteration_trace context actions left right) = 1%nat.
Proof.
  destruct (iteration_trace_split context actions left right) as (before & -> & H).
  rewrite count_app, H. reflexivity.
Qed.

Lemma count_warning_iteration context actions left right :
  count is_warning (iteration_trace context actions left right) = 0%nat.
Proof.
  unfold iteration_trace. rewrite count_app.
  destruct (focused context); [|reflexivity].
  rewrite count_cons, count_app, !count_hand_trace by apply is_warning_ignores.
  rewrite (hand_line_not_warning _ (hand_line_left_is_hand_line _)),
    (hand_line_not_warning _ (hand_line_right_is_hand_line _)).
  reflexivity.
Qed.

Lemma count_hand_line_iteration context actions left right :
  count is_hand_line (iteration_trace context actions left right)
  = if focused context then 2%nat else 0%nat.
Proof.
  unfold iteration_trace. rewrite count_app.
  destruct (focused context); [|reflexivity].
  rewrite count_cons, count_app, !count_hand_trace by apply is_hand_line_ignores.
  rewrite hand_line_left_is_hand_line, hand_line_right_is_hand_line.
  reflexivity.
Qed.

Lemma polled_frames_cons frame_index context rest :
  polled_frames frame_index (context :: rest)
  = context :: (if (10 <=? frame_index)%nat then []
                else polled_frames (S frame_index) rest).
Proof.
  unfold polled_frames. cbn [firstn].
  destruct (Nat.leb_spec 10 frame_index).
  - replace (10 - frame_index)%nat with 0%nat by lia. reflexivity.
  - replace (10 - frame_index)%nat with (S (10 - S frame_index)) by lia.
    reflexivity.
Qed.

Lemma length_polled_frames frames :
  length (polled_frames 0 frames) = Nat.min 11 (length frames).
Proof. unfold polled_frames. apply length_firstn. Qed.

(** One sleep per frame the loop gets to. *)
Lemma count_sleep_loop actions left right frame_index frames :
  count is_sleep (loop_trace actions left right frame_index frames)
  = length (polled_frames frame_index frames).
Proof.
  revert frame_index. induction frames as [|context rest IH]; intros frame_index.
  - reflexivity.
  - rewrite polled_frames_cons. cbn [loop_trace length].
    rewrite count_app, count_sleep_iteration.
    destruct (10 <=? frame_index)%nat; [reflexivity|].
    rewrite count_cons, IH. reflexivity.
Qed.

Lemma count_warning_loop actions left right frame_index frames :
  count is_warning (loop_trace actions left right frame_index frames) = 0%nat.
Proof.
  revert frame_index. induction frames as [|context rest IH]; intros frame_index.
  - reflexivity.
  - cbn [loop_trace]. rewrite count_app, count_warning_iteration.
    destruct (10 <=? frame_index)%nat; [reflexivity|].
    rewrite count_cons, IH. reflexivity.
Qed.

(** Two hand lines per focused frame the loop gets to. *)
Lemma count_hand_line_loop actions left right frame_index frames :
  count is_hand_line (loop_trace actions left right frame_index frames)
  = (2 * length (List.filter focused (polled_frames frame_index frames)))%nat.
Proof.
  revert frame_index. induction frames as [|context rest IH]; intros frame_index.
  - reflexivity.
  - rewrite polled_frames_cons. cbn [loop_trace List.filter].
    rewrite count_app, count_hand_line_iteration.
    destruct (10 <=? frame_index)%nat.
    + destruct (focused context); reflexivity.
    + rewrite count_cons, IH. cbn [is_hand_line String.prefix orb].
      destruct (focused context); cbn [length]; lia.
Qed.

Lemma count_script p frames :
  count p (run_trace (script frames ∅))
  = (count p setup_trace + count p header_trace
     + count p (script_loop_trace frames)
     + count p (closing_trace (existsb focused (polled_frames 0 frames))))%nat.
Proof. rewrite script_run. cbn [run_trace snd]. rewrite !count_app. lia. Qed.

Lemma script_sleeps frames :
  count is_sleep (run_trace (script frames ∅)) = length (polled_frames 0 frames).
Proof.
  rewrite count_script. unfold script_loop_trace. rewrite count_sleep_loop.
  replace (count is_sleep setup_trace) with 0%nat by (vm_compute; reflexivity).
  replace (count is_sleep header_trace) with 0%nat by (vm_compute; reflexivity).
  destruct (existsb focused (polled_frames 0 frames));
    vm_compute (count _ (closing_trace _)); lia.
Qed.

Lemma script_hand_lines frames :
  count is_hand_line (run_trace (script frames ∅))
  = (2 * length (List.filter focused (polled_frames 0 frames)))%nat.
Proof.
  rewrite count_script. unfold script_loop_trace. rewrite count_hand_line_loop.
  replace (count is_hand_line setup_trace) with 0%nat by (vm_compute; reflexivity).
  replace (count is_hand_line header_trace) with 0%nat by (vm_compute; reflexivity).
  destruct (existsb focused (polled_frames 0 frames)); vm_compute (count _ (closing_trace _)); lia.
Qed.

Lemma script_warnings frames :
  count is_warning (run_trace (script frames ∅))
  = if existsb focused (polled_frames 0 frames) then 0%nat else 1%nat.
Proof.
  rewrite count_script. unfold script_loop_trace. rewrite count_warning_loop.
  replace (count is_warning setup_trace) with 0%nat by (vm_compute; reflexivity).
  replace (count is_warning header_trace) with 0%nat by (vm_compute; reflexivity).
  destruct (existsb focused (polled_frames 0 frames));
    vm_compute (count _ (closing_trace _)); reflexivity.
Qed.

Lemma focused_iff context : focused context = true <-> session_state context = FOCUSED.
Proof.
  unfold focused. destruct (session_state context); cbn; split;
    congruence.
Qed.

Lemma warning_printed_iff t :
  In (print_call warning) t <-> count is_warning t <> 0%nat.
Proof.
  rewrite count_pos_iff. split.
  - intros H. exists (print_call warning). split; [exact H|].
    cbn. apply String.eqb_refl.
  - intros (e & Hin & He). destruct e; try discriminate.
    cbn in He. apply String.eqb_eq in He. subst. exact Hin.
Qed.

(** *** [suggest_bindings] *)

Lemma append_bindings_run instance action paths acc g :
  append_bindings instance action paths acc g
  = (Returned (acc ++ map (fun path => (action, PathOf path)) paths), g,
     map string_to_path_call paths).
Proof.
  revert acc. induction paths as [|path rest IH]; intros acc.
  - cbn. rewrite app_nil_r. reflexivity.
  - cbn [append_bindings map].
    erewrite bind_run; [| reflexivity | apply IH].
    rewrite <- app_assoc. reflexivity.
Qed.

Lemma build_bindings_run instance pairs acc g :
  build_bindings instance pairs acc g
  = (Returned (acc ++ bindings_of pairs), g, binding_path_calls pairs).
Proof.
  revert acc. induction pairs as [|[action paths] rest IH]; intros acc.
  - cbn. rewrite app_nil_r. reflexivity.
  - cbn [build_bindings bindings_of binding_path_calls flat_map].
    destruct paths as [[|p ps]|]; cbn [truthy default].
    + erewrite bind_run; [| reflexivity | apply IH]. reflexivity.
    + erewrite bind_run; [| apply append_bindings_run | apply IH].
      rewrite <- app_assoc. reflexivity.
    + erewrite bind_run; [| reflexivity | apply IH]. reflexivity.
Qed.

Lemma suggest_bindings_run instance profile_name pairs g :
  suggest_bindings instance profile_name pairs g
  = (fst (suggest_tail g profile_name (bindings_of pairs)), g,
     binding_path_calls pairs ++ snd (suggest_tail g profile_name (bindings_of pairs))).
Proof.
  unfold suggest_bindings, bind. rewrite build_bindings_run. cbn [app].
  unfold suggest_tail.
  destruct (bindings_of pairs) as [|b bs]; [reflexivity|].
  unfold load_profile_dict, load_global, bind.
  destruct (g !! "PROFILES") as [[d|d]|]; cbn; try reflexivity.
  unfold subscript. destruct (d !! profile_name); cbn; reflexivity.
Qed.

Lemma length_bindings_of pairs : length (bindings_of pairs) = binding_count pairs.
Proof.
  unfold binding_count. induction pairs as [|[action paths] rest IH]; [reflexivity|].
  cbn [bindings_of flat_map map list_sum]. fold (bindings_of rest).
  rewrite length_app, length_map, IH. destruct paths; reflexivity.
Qed.

Lemma length_binding_path_calls pairs :
  length (binding_path_calls pairs) = binding_count pairs.
Proof.
  unfold binding_count. induction pairs as [|[action paths] rest IH]; [reflexivity|].
  cbn [binding_path_calls flat_map map list_sum]. fold (binding_path_calls rest).
  rewrite length_app, length_map, IH. destruct paths; reflexivity.
Qed.

Lemma count_suggest_path_calls pairs :
  count is_suggest (binding_path_calls pairs) = 0%nat.
Proof.
  apply count_zero_iff. intros e Hin. unfold binding_path_calls in Hin.
  apply in_flat_map in Hin as ([action paths] & _ & Hin).
  apply in_map_iff in Hin as (path & <- & _). reflexivity.
Qed.

Lemma binding_count_pos pairs :
  binding_count pairs <> 0%nat ->
  exists action paths, In (action, Some paths) pairs /\ paths <> [].
Proof.
  unfold binding_count. induction pairs as [|[action paths] rest IH]; cbn [map list_sum].
  - intros H. exfalso. apply H. reflexivity.
  - destruct paths as [[|p ps]|]; cbn [length Nat.add].
    + intros H. destruct (IH H) as (a & ps & Hin & Hne).
      exists a, ps. split; [right; exact Hin | exact Hne].
    + intros _. exists action, (p :: ps). split; [left; reflexivity | discriminate].
    + intros H. destruct (IH H) as (a & ps & Hin & Hne).
      exists a, ps. split; [right; exact Hin | exact Hne].
Qed.

Lemma binding_count_cons action paths rest :
  binding_count ((action, paths) :: rest)
  = (match paths with Some ps => length ps | None => 0 end + binding_count rest)%nat.
Proof. reflexivity. Qed.

Lemma binding_count_zero pairs :
  (forall action paths, In (action, paths) pairs -> paths = None \/ paths = Some []) ->
  binding_count pairs = 0%nat.
Proof.
  induction pairs as [|[action paths] rest IH]; intros H; [reflexivity|].
  rewrite binding_count_cons, IH.
  - destruct (H action paths (or_introl eq_refl)) as [->| ->]; reflexivity.
  - intros a ps Hin. apply (H a). right. exact Hin.
Qed.

(** *** The shape of fixed-point output *)

Lemma all_digits_append s1 s2 :
  all_digits (s1 +:+ s2) = all_digits s1 && all_digits s2.
Proof.
  induction s1 as [|c s1 IH]; [reflexivity|].
  rewrite append_cons. cbn [all_digits]. rewrite IH, andb_assoc. reflexivity.
Qed.

Lemma digit_char_is_digit d : (0 <= d < 10)%Z -> is_digit (digit_char d) = true.
Proof.
  intros H.
  assert (Hd : (d = 0 \/ d = 1 \/ d = 2 \/ d = 3 \/ d = 4 \/ d = 5 \/ d = 6
                \/ d = 7 \/ d = 8 \/ d = 9)%Z) by lia.
  repeat (destruct Hd as [->|Hd]; [reflexivity|]). subst d. reflexivity.
Qed.

Lemma fixed_digits_shape n v :
  all_digits (fixed_digits n v) = true /\ String.length (fixed_digits n v) = n.
Proof.
  revert v. induction n as [|n IH]; intros v; [split; reflexivity|].
  cbn [fixed_digits]. destruct (IH (v / 10)%Z) as [Hd Hl].
  rewrite all_digits_append, length_append, Hd, Hl. cbn [all_digits String.length].
  rewrite digit_char_is_digit by (apply Z.mod_pos_bound; lia).
  split; [reflexivity | lia].
Qed.

Lemma string_of_uint_digits u : all_digits (NilEmpty.string_of_uint u) = true.
Proof. induction u; cbn; auto. Qed.

Lemma int_digits_shape v : int_digits v <> "" /\ all_digits (int_digits v) = true.
Proof.
  unfold int_digits, NilZero.string_of_uint.
  pose proof (string_of_uint_digits (N.to_uint (Z.to_N v))) as H.
  destruct (N.to_uint (Z.to_N v)); cbn in *; split; try discriminate;
    first [reflexivity | exact H].
Qed.

Lemma sign_prefix_in (plus negative : bool) :
  In (sign_prefix plus negative) (if plus then ["+"; "-"] else [""; "-"]).
Proof. destruct plus, negative; cbn; auto. Qed.

(** A finite float prints as sign, digits, a point and [prec] digits. *)
Lemma format_f_fixed_point (plus : bool) (prec : nat) (v : float) :
  is_finite v = true -> prec <> 0%nat ->
  fixed_point (if plus then ["+"; "-"] else [""; "-"]) prec (format_f plus prec v).
Proof.
  intros Hfin Hprec. apply Nat.eqb_neq in Hprec.
  destruct v as [s|s| |s m e]; try discriminate; unfold format_f; rewrite Hprec.
  - exists (sign_prefix plus s), "0", (fixed_digits prec 0).
    destruct (fixed_digits_shape prec 0) as [Hd Hl].
    repeat split; [apply sign_prefix_in | discriminate | exact Hd | exact Hl].
  - cbv zeta.
    exists (sign_prefix plus s),
      (int_digits (scaled_round prec m e / 10 ^ Z.of_nat prec)),
      (fixed_digits prec (scaled_round prec m e)).
    destruct (fixed_digits_shape prec (scaled_round prec m e)) as [Hd Hl].
    destruct (int_digits_shape (scaled_round prec m e / 10 ^ Z.of_nat prec))
      as [Hne Hi].
    repeat split;
      [apply sign_prefix_in | exact Hne | exact Hi | exact Hd | exact Hl].
Qed.

(** What the setup suggests: one call per profile, with the profile's
    path from [PROFILES] and two bindings for every table that has the
    profile. *)
Lemma setup_suggestions :
  map (fun '(profile, n, bindings) => (profile, n, length bindings))
      (suggested setup_trace)
  = [ (PathOf "/interaction_profiles/khr/simple_controller", 2%nat, 2%nat);
      (PathOf "/interaction_profiles/valve/index_controller", 14%nat, 14%nat);
      (PathOf "/interaction_profiles/oculus/touch_controller", 14%nat, 14%nat);
      (PathOf "/interaction_profiles/htc/vive_controller", 6%nat, 6%nat);
      (PathOf "/interaction_profiles/microsoft/motion_controller", 6%nat, 6%nat) ].
Proof. vm_compute. reflexivity. Qed.

(** A query that raises yields [None] after one call. *)
Lemma raising_query_value session action action_type hand_path :
  query_raises session action action_type hand_path = true ->
  get_state_value session action action_type hand_path = PyNone
  /\ get_state_calls action action_type hand_path
     = [get_action_state_call action_type action hand_path].
Proof.
  intros Hraise. unfold get_state_value, query_raises in *.
  destruct action_type; try discriminate; split; try reflexivity;
    match goal with
    | |- answer_value _ ?r = _ => destruct r; [discriminate | reflexivity]
    end.
Qed.

(** * The claims *)

(** C1.  The loop does not stop after ten frames: [frame_index] counts
    from zero and the loop breaks once it has reached 10, so the body runs
    for up to eleven frames.  Whatever the session states, the number of
    iterations (one sleep each) is the number of frames offered, capped at
    eleven; on twelve focused frames the script sleeps eleven times and
    prints twenty-two hand lines. *)
Theorem frame_loop_runs_eleven_iterations :
  (forall frames,
     count is_sleep (run_trace (script frames ∅)) = Nat.min 11 (length frames))
  /\ count is_sleep (run_trace (script (repeat focused_frame 12) ∅)) = 11%nat
  /\ count is_hand_line (run_trace (script (repeat focused_frame 12) ∅)) = 22%nat.
Proof.
  split; [|split].
  - intros frames. rewrite script_sleeps. apply length_polled_frames.
  - rewrite script_sleeps. reflexivity.
  - rewrite script_hand_lines. reflexivity.
Qed.

(** C2.  When the runtime call behind a state query raises, [get_state]
    returns [None]: the exception does not leave it, the globals are
    untouched, and the only event is the one query that failed (no second
    attempt, nothing printed).  [get_state] cannot raise for any input.
    The printing code shows that control as [name [---]], both as a part
    and inside the line printed for the hand. *)
Theorem get_state_error_is_placeholder session action action_type hand_path g :
  query_raises session action action_type hand_path = true ->
  get_state session action action_type hand_path g
    = (Returned PyNone, g, [get_action_state_call action_type action hand_path])
  /\ never_raises (get_state session action action_type hand_path)
  /\ (forall name,
        format_part name (get_state_value session action action_type hand_path)
        = name +:+ " [---]")
  /\ (forall name before after hand_name,
        polled_type name = action_type ->
        poll_hand session (before ++ (name, action) :: after) [hand_path] 0 hand_name g
        = (Returned tt, g,
           hand_queries (before ++ (name, action) :: after) hand_path
           ++ [print_call (join "   "
                 (ljust 6 hand_name
                  :: map (fun '(n, v) => format_part n v)
                         (hand_states session before hand_path)
                  ++ (name +:+ " [---]")
                  :: map (fun '(n, v) => format_part n v)
                         (hand_states session after hand_path)))])).
Proof.
  intros Hraise.
  destruct (raising_query_value session action action_type hand_path Hraise)
    as [Hvalue Hcalls].
  split; [|split; [|split]].
  - rewrite get_state_run, Hvalue, Hcalls. reflexivity.
  - apply get_state_never_raises.
  - intros name. rewrite Hvalue. reflexivity.
  - intros name before after hand_name Htype.
    rewrite (poll_hand_run _ _ _ _ _ hand_path) by reflexivity.
    unfold hand_trace, hand_line, hand_states.
    rewrite !map_app. cbn [map]. rewrite Htype, Hvalue. reflexivity.
Qed.

(** C2, at a session whose queries all fail. *)
Lemma get_state_error_is_placeholder_witness :
  query_raises failing_session trigger FLOAT_INPUT left_hand = true
  /\ get_state failing_session trigger FLOAT_INPUT left_hand ∅
     = (Returned PyNone, ∅, [get_action_state_call FLOAT_INPUT trigger left_hand]).
Proof.
  split; [reflexivity|].
  apply (get_state_error_is_placeholder failing_session trigger FLOAT_INPUT left_hand ∅).
  reflexivity.
Defined.

(** C3.  The printed representation does not match the type of a boolean
    action's value.  [get_state] returns the [current_state] of a boolean
    state as the integer ctypes reads from the [XrBool32] field, never as a
    [bool]: the [isinstance(value, bool)] branch of the printing code,
    which would print [True] or [False], is never taken for a value
    [get_state] returns, and an active boolean falls to the [else] branch
    and is printed in the three-decimal float format.  With [button_a]
    pressed the script prints [button_a [1.000]], not [button_a [True]]. *)
Theorem boolean_state_prints_as_number :
  (forall session action action_type hand_path g b,
     run_outcome (get_state session action action_type hand_path g)
     <> Returned (PyBool b))
  /\ (forall session action hand_path g state name,
        boolean_result session action hand_path = Returned state ->
        is_active state = true ->
        get_state session action BOOLEAN_INPUT hand_path g
        = (Returned (PyInt (c_uint32 (current_state state))), g,
           [get_action_state_call BOOLEAN_INPUT action hand_path])
        /\ format_part name (PyInt (c_uint32 (current_state state)))
           = name +:+ " ["
             +:+ format_f false 3 (float_of_int (c_uint32 (current_state state)))
             +:+ "]")
  /\ get_state active_session (ActionHandle BOOLEAN_INPUT "button_a")
       BOOLEAN_INPUT left_hand ∅
     = (Returned (PyInt 1), ∅,
        [get_action_state_call BOOLEAN_INPUT (ActionHandle BOOLEAN_INPUT "button_a")
           left_hand])
  /\ format_part "button_a" (PyInt 1) = "button_a [1.000]"
  /\ format_part "button_a" (PyBool true) = "button_a [True]"
  /\ poll_hand active_session script_actions [left_hand; right_hand] 0 "LEFT" ∅
     = (Returned tt, ∅,
        hand_queries script_actions left_hand
        ++ [print_call
              ("LEFT     trigger [0.500]   squeeze [0.500]   "
               +:+ "joystick [(+0.50,-0.25)]   button_a [1.000]   "
               +:+ "button_b [1.000]   button_a_touch [1.000]   "
               +:+ "button_b_touch [1.000]")]).
Proof.
  split; [|split; [|split; [|split; [|split]]]].
  - intros session action action_type hand_path g b.
    rewrite get_state_run. cbn [run_outcome fst]. unfold get_state_value.
    destruct action_type; try discriminate;
      match goal with
      | |- Returned (answer_value _ ?r) <> _ =>
          destruct r as [state|e]; cbn; [destruct (is_active state)|]; discriminate
      end.
  - intros session action hand_path g state name Hanswer Hactive.
    split; [|reflexivity].
    rewrite get_state_run. unfold get_state_value. rewrite Hanswer. cbn.
    rewrite Hactive. reflexivity.
  - vm_compute. reflexivity.
  - vm_compute. reflexivity.
  - vm_compute. reflexivity.
  - vm_compute. reflexivity.
Qed.

(** C5.  Every entry of each of the seven component-path tables is a pair
    whose first member is an input path of the left hand (it starts with
    [/user/hand/left/input/]) and whose second member is an input path of
    the right hand (it starts with [/user/hand/right/input/]). *)
Theorem component_paths_are_left_right_pairs
    (table_name : string) (table : gmap string (string * string))
    (profile : string) (paths : string * string) :
  In (table_name, table) component_path_tables ->
  table !! profile = Some paths ->
  input_path_of "left" (fst paths) = true
  /\ input_path_of "right" (snd paths) = true.
Proof.
  intros Htable Hentry.
  unfold component_path_tables in Htable. cbn [In] in Htable.
  repeat (destruct Htable as [Htable|Htable];
          [ injection Htable as <- <-;
            apply elem_of_list_to_map_2, list_elem_of_In in Hentry;
            cbn [In] in Hentry;
            repeat (destruct Hentry as [Hentry|Hentry];
                    [injection Hentry as <- <-; split; reflexivity|]);
            destruct Hentry
          | ]).
  destruct Htable.
Qed.

(** C5, at the oculus entry of [BUTTON_A_PATHS]. *)
Lemma component_paths_are_left_right_pairs_witness :
  input_path_of "left" "/user/hand/left/input/x/click" = true
  /\ input_path_of "right" "/user/hand/right/input/a/click" = true.
Proof.
  apply (component_paths_are_left_right_pairs "BUTTON_A_PATHS" BUTTON_A_PATHS "oculus"
           ("/user/hand/left/input/x/click", "/user/hand/right/input/a/click")).
  - cbn. tauto.
  - vm_compute. reflexivity.
Defined.

(** C6.  The module-level assignments bind [PROFILES] and the seven
    component-path tables once; after that no operation of the program
    changes the global namespace: not [create_action], not
    [suggest_bindings], not [get_state], not the frame loop, not the main
    program as a whole, for any arguments, any frames and however the
    operation ends.  After the whole script the globals are exactly those
    the assignments built. *)
Theorem tables_never_mutated :
  run_globals (module_load ∅) = loaded_globals
  /\ loaded_globals !! "PROFILES" = Some (ProfileDict PROFILES)
  /\ Forall (fun '(name, d) => loaded_globals !! name = Some (PathDict d))
            component_path_tables
  /\ (forall action_set action_type name hand_paths,
        preserves_globals (create_action action_set action_type name hand_paths))
  /\ (forall instance profile_name action_path_pairs,
        preserves_globals (suggest_bindings instance profile_name action_path_pairs))
  /\ (forall session action action_type hand_path,
        preserves_globals (get_state session action action_type hand_path))
  /\ (forall actions hand_paths frame_index frames flag,
        preserves_globals (frame_loop actions hand_paths frame_index frames flag))
  /\ (forall frames, preserves_globals (main frames))
  /\ (forall frames, run_globals (script frames ∅) = run_globals (module_load ∅)).
Proof.
  split; [rewrite module_load_run; reflexivity|].
  split; [apply loaded_globals_bindings|].
  split; [apply loaded_globals_bindings|].
  split; [intros; apply preserves_create_action|].
  split; [intros; apply preserves_suggest_bindings|].
  split; [intros; apply preserves_get_state|].
  split; [intros; apply preserves_frame_loop|].
  split; [intros; apply preserves_main|].
  intros frames. rewrite script_run, module_load_run. reflexivity.
Qed.

(** C7.  Every iteration sleeps exactly once, for 0.5 seconds, as its
    last step before the frame-count test, whether or not the session was
    focused: the events of an iteration are some events without a sleep
    followed by one [sleep(0.5)]; in the loop the test on [frame_index]
    comes right after the iteration; and over a whole run there are as many
    sleeps as frames the loop gets to. *)
Theorem every_iteration_sleeps_once context actions left right flag g :
  (exists before,
     frame_iteration context actions [left; right] flag g
     = (Returned (focused context || flag), g, before ++ [sleep_call half])
     /\ count is_sleep before = 0%nat)
  /\ (forall frame_index rest,
        frame_loop actions [left; right] frame_index (context :: rest) flag
        = (b <- frame_iteration context actions [left; right] flag ;;
           if (10 <=? frame_index)%nat then ret b
           else print "" ;;
                frame_loop actions [left; right] (S frame_index) rest b))
  /\ (forall frames,
        count is_sleep (run_trace (script frames ∅))
        = length (polled_frames 0 frames)).
Proof.
  split; [|split].
  - destruct (iteration_trace_split context actions left right)
      as (before & Htrace & Hnone).
    exists before. rewrite frame_iteration_run, Htrace. split; [reflexivity | exact Hnone].
  - intros frame_index rest. reflexivity.
  - apply script_sleeps.
Qed.

(** C8.  [get_state] also returns [None] without any exception: when the
    state the runtime returns has [is_active] false, and, without calling
    the runtime at all, for every action type other than [FLOAT_INPUT],
    [BOOLEAN_INPUT] and [VECTOR2F_INPUT].  An inactive input and a failed
    query are the same to the caller: [get_state] gives the same result
    and the same events, and the printed part is [name [---]] for both. *)
Theorem get_state_none_without_exception session action hand_path g :
  (forall action_type,
     query_inactive session action action_type hand_path = true ->
     get_state session action action_type hand_path g
     = (Returned PyNone, g, [get_action_state_call action_type action hand_path]))
  /\ (forall raw,
        get_state session action (OTHER_ACTION_TYPE raw) hand_path g
        = (Returned PyNone, g, []))
  /\ (forall action_type failed name,
        query_inactive session action action_type hand_path = true ->
        query_raises failed action action_type hand_path = true ->
        get_state session action action_type hand_path g
        = get_state failed action action_type hand_path g
        /\ format_part name (get_state_value session action action_type hand_path)
           = name +:+ " [---]"
        /\ format_part name (get_state_value failed action action_type hand_path)
           = name +:+ " [---]").
Proof.
  assert (Hinactive : forall action_type,
            query_inactive session action action_type hand_path = true ->
            get_state_value session action action_type hand_path = PyNone
            /\ get_state_calls action action_type hand_path
               = [get_action_state_call action_type action hand_path]).
  { intros action_type H. unfold query_inactive, get_state_value in *.
    destruct action_type; try discriminate; split; try reflexivity;
      match goal with
      | |- answer_value _ ?r = _ =>
          destruct r as [state|e]; [|discriminate];
          cbn in *; destruct (is_active state); [discriminate | reflexivity]
      end. }
  split; [|split].
  - intros action_type H. destruct (Hinactive action_type H) as [Hv Hc].
    rewrite get_state_run, Hv, Hc. reflexivity.
  - intros raw. rewrite get_state_run. reflexivity.
  - intros action_type failed name Hin Hraise.
    destruct (Hinactive action_type Hin) as [Hv Hc].
    destruct (raising_query_value failed action action_type hand_path Hraise)
      as [Hv' Hc'].
    rewrite !get_state_run, Hv, Hv'. repeat split; reflexivity.
Qed.

(** C8, at a session whose inputs are all inactive, against one whose
    queries all fail. *)
Lemma get_state_none_without_exception_witness :
  query_inactive inactive_session trigger FLOAT_INPUT left_hand = true
  /\ query_raises failing_session trigger FLOAT_INPUT left_hand = true
  /\ get_state inactive_session trigger FLOAT_INPUT left_hand ∅
     = get_state failing_session trigger FLOAT_INPUT left_hand ∅.
Proof.
  split; [reflexivity|]. split; [reflexivity|].
  destruct (get_state_none_without_exception inactive_session trigger left_hand ∅)
    as (_ & _ & Hsame).
  destruct (Hsame FLOAT_INPUT failing_session "trigger") as [Heq _];
    [reflexivity | reflexivity | exact Heq].
Defined.

(** C9.  One call of [suggest_bindings] calls the runtime's
    [suggest_interaction_profile_bindings] at most once, and only if some
    action has a non-empty path group.  When every path group is [None] or
    empty it calls nothing at all and returns.  When it does call, the
    count it passes is the number of paths in the path groups that are not
    [None], which is the length of the binding list it passes, one binding
    per (action, path). *)
Theorem suggest_bindings_calls_once instance profile_name action_path_pairs g :
  let t := run_trace (suggest_bindings instance profile_name action_path_pairs g) in
  (count is_suggest t <= 1)%nat
  /\ (count is_suggest t <> 0%nat ->
      exists action paths, In (action, Some paths) action_path_pairs /\ paths <> [])
  /\ ((forall action paths,
         In (action, paths) action_path_pairs -> paths = None \/ paths = Some []) ->
      suggest_bindings instance profile_name action_path_pairs g = (Returned tt, g, []))
  /\ (forall interaction_profile n bindings,
        In (suggest_interaction_profile_bindings_call interaction_profile n bindings) t ->
        n = binding_count action_path_pairs
        /\ bindings = bindings_of action_path_pairs
        /\ length bindings = n).
Proof.
  cbv zeta. rewrite suggest_bindings_run. cbn [run_trace snd].
  pose proof (length_bindings_of action_path_pairs) as Hlen.
  pose proof (length_binding_path_calls action_path_pairs) as Hcalls.
  split; [|split; [|split]].
  - rewrite count_app, count_suggest_path_calls. unfold suggest_tail.
    destruct (bindings_of action_path_pairs) as [|b bs]; [cbn; lia|].
    destruct (g !! "PROFILES") as [[d|d]|]; try (cbn; lia).
    destruct (d !! profile_name); cbn; lia.
  - intros Hcount. apply binding_count_pos. rewrite <- Hlen.
    intros Hnil. apply Hcount.
    rewrite count_app, count_suggest_path_calls.
    destruct (bindings_of action_path_pairs); [reflexivity | discriminate].
  - intros Hempty. apply binding_count_zero in Hempty.
    rewrite Hempty in Hlen, Hcalls.
    destruct (bindings_of action_path_pairs); [|discriminate].
    destruct (binding_path_calls action_path_pairs); [|discriminate].
    reflexivity.
  - intros interaction_profile n bindings Hin.
    apply in_app_or in Hin as [Hin|Hin].
    + exfalso. unfold binding_path_calls in Hin.
      apply in_flat_map in Hin as ([action paths] & _ & Hin).
      apply in_map_iff in Hin as (path & Heq & _). discriminate.
    + rewrite <- Hlen. unfold suggest_tail in Hin.
      destruct (bindings_of action_path_pairs) as [|b bs]; [destruct Hin|].
      destruct (g !! "PROFILES") as [[d|d]|]; try destruct Hin.
      destruct (d !! profile_name); cbn in Hin; [|destruct Hin].
      destruct Hin as [Hin|[Hin|[]]]; [discriminate|].
      injection Hin as <- <- <-. repeat split; reflexivity.
Qed.

(** C9, at the call made for the [khr] profile, where only the trigger
    has paths. *)
Lemma suggest_bindings_calls_once_witness :
  count is_suggest
    (run_trace (suggest_bindings context_instance "khr"
       [ (trigger, Some ["/user/hand/left/input/select/click";
                         "/user/hand/right/input/select/click"]);
         (ActionHandle FLOAT_INPUT "squeeze", None) ] loaded_globals)) <> 0%nat
  /\ exists action paths,
       In (action, Some paths)
          [ (trigger, Some ["/user/hand/left/input/select/click";
                            "/user/hand/right/input/select/click"]);
            (ActionHandle FLOAT_INPUT "squeeze", None) ]
       /\ paths <> [].
Proof.
  assert (Hcount :
    count is_suggest
      (run_trace (suggest_bindings context_instance "khr"
         [ (trigger, Some ["/user/hand/left/input/select/click";
                           "/user/hand/right/input/select/click"]);
           (ActionHandle FLOAT_INPUT "squeeze", None) ] loaded_globals)) <> 0%nat).
  { vm_compute. discriminate. }
  split; [exact Hcount|].
  apply (suggest_bindings_calls_once context_instance "khr" _ loaded_globals).
  exact Hcount.
Defined.

(** C10.  The line [Warning: Session never reached FOCUSED state.] is
    printed if and only if none of the frames the loop iterated over had
    the session state [FOCUSED]. *)
Theorem warning_iff_never_focused frames :
  In (print_call warning) (run_trace (script frames ∅))
  <-> (forall context,
         In context (polled_frames 0 frames) -> session_state context <> FOCUSED).
Proof.
  rewrite warning_printed_iff, script_warnings.
  destruct (existsb focused (polled_frames 0 frames)) eqn:Hfocused.
  - apply existsb_exists in Hfocused as (context & Hin & Hf).
    apply focused_iff in Hf. split; [intros H; exfalso; apply H; reflexivity|].
    intros H. exfalso. exact (H context Hin Hf).
  - split; [|intros _; discriminate].
    intros _ context Hin Hstate. apply focused_iff in Hstate.
    assert (Hex : existsb focused (polled_frames 0 frames) = true).
    { apply existsb_exists. exists context. split; assumption. }
    congruence.
Qed.

(** C10, at a run of two frames that are not focused. *)
Lemma warning_iff_never_focused_witness :
  In (print_call warning) (run_trace (script [unfocused_frame; unfocused_frame] ∅)).
Proof.
  apply (warning_iff_never_focused [unfocused_frame; unfocused_frame]).
  intros context Hin. cbn in Hin.
  destruct Hin as [<-|[<-|[]]]; discriminate.
Defined.

(** * Further properties of the script *)

(** ** [get_state] *)

(** X1.  When the runtime returns an active state, [get_state] returns
    its [current_state] after that one query: the float for a float
    action, the integer read from the 32-bit field for a boolean action
    (an [int], not a [bool]), the pair [(x, y)] for a vector action. *)
Theorem get_state_active_returns_current_state session action hand_path g :
  (forall state,
     float_result session action hand_path = Returned state ->
     is_active state = true ->
     get_state session action FLOAT_INPUT hand_path g
     = (Returned (PyFloat (current_state state)), g,
        [get_action_state_call FLOAT_INPUT action hand_path]))
  /\ (forall state,
        boolean_result session action hand_path = Returned state ->
        is_active state = true ->
        get_state session action BOOLEAN_INPUT hand_path g
        = (Returned (PyInt (c_uint32 (current_state state))), g,
           [get_action_state_call BOOLEAN_INPUT action hand_path]))
  /\ (forall state,
        vector2f_result session action hand_path = Returned state ->
        is_active state = true ->
        get_state session action VECTOR2F_INPUT hand_path g
        = (Returned (PyTuple (x (current_state state)) (y (current_state state))), g,
           [get_action_state_call VECTOR2F_INPUT action hand_path])).
Proof.
  repeat split; intros state Hanswer Hactive; rewrite get_state_run;
    unfold get_state_value; rewrite Hanswer; cbn; rewrite Hactive; reflexivity.
Qed.

(** X1, at a session whose trigger reads 0.5. *)
Lemma get_state_active_returns_current_state_witness :
  get_state active_session trigger FLOAT_INPUT left_hand ∅
  = (Returned (PyFloat half), ∅, [get_action_state_call FLOAT_INPUT trigger left_hand]).
Proof.
  destruct (get_state_active_returns_current_state active_session trigger left_hand ∅)
    as (Hfloat & _ & _).
  apply (Hfloat {| current_state := half; is_active := true |}); reflexivity.
Defined.

(** X2.  Whatever the runtime answers, [get_state] calls it at most once,
    and that call is the query of the kind [action_type] names, for the
    action and the hand path it was given; it never prints or sleeps. *)
Theorem get_state_queries_at_most_once session action action_type hand_path g :
  let t := run_trace (get_state session action action_type hand_path g) in
  (length t <= 1)%nat
  /\ (forall e, In e t -> e = get_action_state_call action_type action hand_path)
  /\ (t = [] <-> exists raw, action_type = OTHER_ACTION_TYPE raw).
Proof.
  cbv zeta. rewrite get_state_run. cbn [run_trace snd]. unfold get_state_calls.
  destruct action_type; cbn [length In]; repeat split;
    try lia; try (intros e [<-|[]]; reflexivity); try (intros e []);
    try discriminate; try (intros (raw' & H); discriminate).
  intros _. eexists. reflexivity.
Qed.

(** ** [suggest_bindings] *)

(** X3.  A profile name that is not a key of [PROFILES] makes
    [suggest_bindings] raise [KeyError] as soon as there is a binding to
    suggest: the paths have been converted by then, but no bindings are
    suggested to the runtime. *)
Theorem suggest_bindings_unknown_profile instance profile_name action_path_pairs g d :
  g !! "PROFILES" = Some (ProfileDict d) ->
  d !! profile_name = None ->
  binding_count action_path_pairs <> 0%nat ->
  suggest_bindings instance profile_name action_path_pairs g
  = (Raised (KeyError profile_name), g, binding_path_calls action_path_pairs)
  /\ count is_suggest (binding_path_calls action_path_pairs) = 0%nat.
Proof.
  intros Hglobal Hkey Hcount. split; [|apply count_suggest_path_calls].
  rewrite suggest_bindings_run. unfold suggest_tail.
  rewrite <- length_bindings_of in Hcount.
  destruct (bindings_of action_path_pairs) as [|b bs]; [contradiction|].
  rewrite Hglobal, Hkey. cbn [fst snd]. rewrite app_nil_r. reflexivity.
Qed.

(** X3, at a profile the script does not know. *)
Lemma suggest_bindings_unknown_profile_witness :
  suggest_bindings context_instance "pico"
    [(trigger, Some ["/user/hand/left/input/trigger/value"])] loaded_globals
  = (Raised (KeyError "pico"), loaded_globals,
     [string_to_path_call "/user/hand/left/input/trigger/value"]).
Proof.
  apply (suggest_bindings_unknown_profile context_instance "pico"
           [(trigger, Some ["/user/hand/left/input/trigger/value"])]
           loaded_globals PROFILES).
  - vm_compute. reflexivity.
  - vm_compute. reflexivity.
  - discriminate.
Defined.

(** X4.  For a profile name that is a key of [PROFILES] and at least one
    path to bind, [suggest_bindings] converts every path in order, then the
    profile's path, and then makes exactly one suggest call, as its last
    event: for that profile, with every action paired with each of its
    paths in argument order, and a count equal to their number. *)
Theorem suggest_bindings_known_profile
    instance profile_name action_path_pairs g d profile :
  g !! "PROFILES" = Some (ProfileDict d) ->
  d !! profile_name = Some profile ->
  binding_count action_path_pairs <> 0%nat ->
  suggest_bindings instance profile_name action_path_pairs g
  = (Returned tt, g,
     flat_map (fun '(action, paths) => map string_to_path_call (default [] paths))
              action_path_pairs
     ++ [ string_to_path_call profile;
          suggest_interaction_profile_bindings_call (PathOf profile)
            (binding_count action_path_pairs)
            (flat_map (fun '(action, paths) =>
                         map (fun path => (action, PathOf path)) (default [] paths))
                      action_path_pairs) ]).
Proof.
  intros Hglobal Hkey Hcount.
  rewrite suggest_bindings_run. unfold suggest_tail.
  pose proof (length_bindings_of action_path_pairs) as Hlen.
  fold (bindings_of action_path_pairs). fold (binding_path_calls action_path_pairs).
  destruct (bindings_of action_path_pairs) as [|b bs] eqn:Hb;
    [cbn in Hlen; congruence|].
  rewrite Hglobal, Hkey, Hlen. reflexivity.
Qed.

(** X4, at the call the script makes for the [khr] profile. *)
Lemma suggest_bindings_known_profile_witness :
  count is_suggest
    (run_trace (suggest_bindings context_instance "khr"
       [(trigger, Some ["/user/hand/left/input/select/click";
                        "/user/hand/right/input/select/click"])] loaded_globals))
  = 1%nat.
Proof.
  rewrite (suggest_bindings_known_profile context_instance "khr"
             [(trigger, Some ["/user/hand/left/input/select/click";
                              "/user/hand/right/input/select/click"])]
             loaded_globals PROFILES "/interaction_profiles/khr/simple_controller").
  - reflexivity.
  - vm_compute. reflexivity.
  - vm_compute. reflexivity.
  - discriminate.
Defined.

Lemma bindings_of_filter pairs :
  bindings_of (List.filter has_paths pairs) = bindings_of pairs.
Proof.
  induction pairs as [|[action paths] rest IH]; [reflexivity|].
  cbn [List.filter]. unfold has_paths at 1. cbn [snd].
  destruct paths as [[|p ps]|]; cbn [truthy];
    cbn [bindings_of flat_map default map app];
    fold (bindings_of rest); fold (bindings_of (List.filter has_paths rest));
    rewrite IH; reflexivity.
Qed.

Lemma binding_path_calls_filter pairs :
  binding_path_calls (List.filter has_paths pairs) = binding_path_calls pairs.
Proof.
  induction pairs as [|[action paths] rest IH]; [reflexivity|].
  cbn [List.filter]. unfold has_paths at 1. cbn [snd].
  destruct paths as [[|p ps]|]; cbn [truthy];
    cbn [binding_path_calls flat_map default map app];
    fold (binding_path_calls rest);
    fold (binding_path_calls (List.filter has_paths rest));
    rewrite IH; reflexivity.
Qed.

(** X5.  Entries whose path group is [None] or empty have no effect:
    dropping them from the argument gives the same outcome and the same
    events, for every profile name and every state of the globals. *)
Theorem suggest_bindings_skips_empty_groups instance profile_name action_path_pairs g :
  suggest_bindings instance profile_name (List.filter has_paths action_path_pairs) g
  = suggest_bindings instance profile_name action_path_pairs g.
Proof.
  rewrite !suggest_bindings_run, bindings_of_filter, binding_path_calls_filter.
  reflexivity.
Qed.

(** X5, at the trigger of the [khr] profile beside a squeeze without
    paths. *)
Lemma suggest_bindings_skips_empty_groups_witness :
  suggest_bindings context_instance "khr"
    [ (trigger, Some ["/user/hand/left/input/select/click";
                      "/user/hand/right/input/select/click"]) ] loaded_globals
  = suggest_bindings context_instance "khr"
      [ (trigger, Some ["/user/hand/left/input/select/click";
                        "/user/hand/right/input/select/click"]);
        (ActionHandle FLOAT_INPUT "squeeze", None) ] loaded_globals.
Proof.
  apply (suggest_bindings_skips_empty_groups context_instance "khr"
           [ (trigger, Some ["/user/hand/left/input/select/click";
                             "/user/hand/right/input/select/click"]);
             (ActionHandle FLOAT_INPUT "squeeze", None) ] loaded_globals).
Defined.

(** ** [create_action] *)






(** ** The frame loop *)

(** X7.  On a frame whose session state is not [FOCUSED] the iteration
    only sleeps: no sync, no query, no output, and the flag keeps its
    value, whatever the actions and hand paths are. *)
Theorem unfocused_iteration_only_sleeps context actions hand_paths flag g :
  session_state context <> FOCUSED ->
  frame_iteration context actions hand_paths flag g
  = (Returned flag, g, [sleep_call half]).
Proof.
  intros Hstate. unfold frame_iteration.
  destruct (SessionState_eqb (session_state context) FOCUSED) eqn:Heq.
  - exfalso. apply Hstate. apply focused_iff. exact Heq.
  - reflexivity.
Qed.

(** X7, at a frame that is not focused. *)
Lemma unfocused_iteration_only_sleeps_witness :
  frame_iteration unfocused_frame script_actions [left_hand; right_hand] false ∅
  = (Returned false, ∅, [sleep_call half]).
Proof.
  apply (unfocused_iteration_only_sleeps unfocused_frame script_actions
           [left_hand; right_hand] false ∅).
  discriminate.
Defined.

Lemma hand_queries_map actions hand_path :
  hand_queries actions hand_path = map (query_of hand_path) actions.
Proof.
  induction actions as [|[name action] rest IH]; [reflexivity|].
  cbn [hand_queries flat_map map]. fold (hand_queries rest hand_path).
  rewrite IH. unfold query_of at 2, get_state_calls, polled_type. cbn [fst snd].
  destruct (existsb (String.eqb name) ["trigger"; "squeeze"]); [reflexivity|].
  destruct (String.eqb name "joystick"); reflexivity.
Qed.

(** X8.  On a focused frame the iteration sets the flag and performs, in
    this order: one [sync_actions]; one query per action, in dictionary
    order, on the left hand path; the line of the left hand; one query per
    action on the right hand path; the line of the right hand; the sleep.
    The lines start with the hand name padded to six characters. *)
Theorem focused_iteration_order context actions left right flag g :
  session_state context = FOCUSED ->
  exists line_left line_right,
    frame_iteration context actions [left; right] flag g
    = (Returned true, g,
       sync_actions_call
       :: map (query_of left) actions ++ [print_call line_left]
       ++ map (query_of right) actions ++ [print_call line_right]
       ++ [sleep_call half])
    /\ String.prefix "LEFT  " line_left = true
    /\ String.prefix "RIGHT " line_right = true.
Proof.
  intros Hstate. apply focused_iff in Hstate.
  exists (hand_line "LEFT" (hand_states (session context) actions left)),
         (hand_line "RIGHT" (hand_states (session context) actions right)).
  split; [|split].
  - rewrite frame_iteration_run, Hstate. unfold iteration_trace, hand_trace.
    rewrite Hstate, !hand_queries_map. cbn [orb app].
    rewrite <- !app_assoc. reflexivity.
  - apply (hand_line_starts "LEFT").
  - apply (hand_line_starts "RIGHT").
Qed.

(** X8, at a focused frame of the script. *)
Lemma focused_iteration_order_witness :
  exists line_left line_right,
    frame_iteration focused_frame script_actions [left_hand; right_hand] false ∅
    = (Returned true, ∅,
       sync_actions_call
       :: map (query_of left_hand) script_actions ++ [print_call line_left]
       ++ map (query_of right_hand) script_actions ++ [print_call line_right]
       ++ [sleep_call half])
    /\ String.prefix "LEFT  " line_left = true
    /\ String.prefix "RIGHT " line_right = true.
Proof.
  apply (focused_iteration_order focused_frame script_actions left_hand right_hand
           false ∅).
  reflexivity.
Defined.

(** X9.  The two edge cases of the per-hand body.  With no actions it
    makes no query and prints the padded hand name alone, whatever the
    hand paths are.  With at least one action and a hand index outside the
    hand-path array, the subscript raises [IndexError] before any query is
    made and nothing is printed: this exception is outside [get_state]'s
    [try] and is not caught. *)
Theorem poll_hand_edge_cases session hand_paths hand_idx hand_name g :
  poll_hand session [] hand_paths hand_idx hand_name g
  = (Returned tt, g, [print_call (ljust 6 hand_name)])
  /\ (forall actions,
        actions <> [] ->
        nth_error hand_paths hand_idx = None ->
        poll_hand session actions hand_paths hand_idx hand_name g
        = (Raised IndexError, g, [])).
Proof.
  split; [reflexivity|].
  intros actions Hne Hidx. destruct actions as [|[name action] rest]; [contradiction|].
  unfold poll_hand. cbn [comprehension]. unfold bind at 1 2 3.
  unfold array_subscript. rewrite Hidx. reflexivity.
Qed.

(** X9, at a hand index past the two hand paths. *)
Lemma poll_hand_edge_cases_witness :
  poll_hand active_session script_actions [left_hand; right_hand] 2 "LEFT" ∅
  = (Raised IndexError, ∅, []).
Proof.
  destruct (poll_hand_edge_cases active_session [left_hand; right_hand] 2 "LEFT" ∅)
    as [_ Hraise].
  apply Hraise; [discriminate | reflexivity].
Defined.

Lemma loop_trace_polled actions left right frame_index frames :
  loop_trace actions left right frame_index (polled_frames frame_index frames)
  = loop_trace actions left right frame_index frames.
Proof.
  revert frame_index. induction frames as [|context rest IH]; intros frame_index.
  - reflexivity.
  - rewrite polled_frames_cons. cbn [loop_trace].
    destruct (10 <=? frame_index)%nat eqn:Hle; cbn [loop_trace].
    + destruct (10 <=? frame_index)%nat; reflexivity.
    + rewrite IH. reflexivity.
Qed.

Lemma polled_frames_idem frame_index frames :
  polled_frames frame_index (polled_frames frame_index frames)
  = polled_frames frame_index frames.
Proof.
  unfold polled_frames. rewrite firstn_firstn, Nat.min_id. reflexivity.
Qed.

(** X10.  The script never looks past the eleventh frame: a run on any
    frame stream is the run on its first eleven frames, with the same
    outcome, globals and events. *)
Theorem script_reads_eleven_frames frames :
  script frames ∅ = script (firstn 11 frames) ∅.
Proof.
  change (firstn 11 frames) with (polled_frames 0 frames).
  rewrite !script_run. unfold script_loop_trace.
  rewrite loop_trace_polled, polled_frames_idem. reflexivity.
Qed.

(** *** Counting along the loop *)

Lemma list_sum_cons (a : nat) (l : list nat) :
  list_sum (a :: l) = (a + list_sum l)%nat.
Proof. reflexivity. Qed.

Lemma count_loop p actions left right frame_index frames :
  count p (loop_trace actions left right frame_index frames)
  = (list_sum (map (fun context => count p (iteration_trace context actions left right))
                   (polled_frames frame_index frames))
     + (if p (print_call "")
        then Nat.min (10 - frame_index) (length frames) else 0))%nat.
Proof.
  revert frame_index. induction frames as [|context rest IH]; intros frame_index.
  - cbn. destruct (p (print_call "")); lia.
  - rewrite polled_frames_cons. cbn [loop_trace map length].
    rewrite count_app.
    destruct (Nat.leb_spec 10 frame_index) as [Hge|Hlt].
    + replace (10 - frame_index)%nat with 0%nat by lia.
      rewrite count_nil, list_sum_cons. cbn [map list_sum fold_right Nat.min].
      destruct (p (print_call "")); lia.
    + rewrite count_cons, IH. cbn [map]. rewrite list_sum_cons.
      replace (10 - frame_index)%nat with (S (10 - S frame_index)) by lia.
      rewrite <- Nat.succ_min_distr.
      destruct (p (print_call "")); lia.
Qed.

Lemma list_sum_focused (k : nat) (f : frame -> nat) frames :
  (forall context, f context = if focused context then k else 0%nat) ->
  list_sum (map f frames) = (k * length (List.filter focused frames))%nat.
Proof.
  intros Hf. induction frames as [|context rest IH]; [cbn; lia|].
  cbn [map List.filter]. rewrite list_sum_cons, IH, Hf.
  destruct (focused context); cbn [length]; lia.
Qed.

Lemma count_query_queries hand_path actions :
  count is_query (map (query_of hand_path) actions) = length actions.
Proof.
  induction actions as [|entry rest IH]; [reflexivity|].
  cbn [map length]. rewrite count_cons, IH. reflexivity.
Qed.

Lemma count_query_iteration context actions left right :
  count is_query (iteration_trace context actions left right)
  = if focused context then (2 * length actions)%nat else 0%nat.
Proof.
  unfold iteration_trace, hand_trace. rewrite !hand_queries_map.
  destruct (focused context); [|reflexivity].
  rewrite count_app, count_cons, !count_app, !count_query_queries.
  cbn. lia.
Qed.

Lemma count_sync_iteration context actions left right :
  count is_sync (iteration_trace context actions left right)
  = if focused context then 1%nat else 0%nat.
Proof.
  unfold iteration_trace. rewrite count_app.
  destruct (focused context); [|reflexivity].
  rewrite count_cons, count_app, !count_hand_trace by apply is_sync_ignores.
  reflexivity.
Qed.

Lemma count_blank_iteration context actions left right :
  count is_blank (iteration_trace context actions left right) = 0%nat.
Proof.
  apply count_zero_iff. intros e Hin.
  destruct (is_blank e) eqn:Hb; [|reflexivity]. exfalso.
  destruct e as [| | | | |text|]; try discriminate.
  cbn in Hb. apply String.eqb_eq in Hb. subst text.
  unfold iteration_trace, hand_trace in Hin. rewrite !hand_queries_map in Hin.
  destruct (focused context); cbn [app] in Hin.
  - destruct Hin as [Hin|Hin]; [discriminate|].
    repeat (apply in_app_or in Hin as [Hin|Hin]);
      try (apply in_map_iff in Hin as (entry & Heq & _); discriminate).
    + destruct Hin as [Hin|[]]. injection Hin as Hin.
      pose proof (hand_line_starts "LEFT"
                    (hand_states (session context) actions left)) as Hp.
      rewrite Hin in Hp. discriminate.
    + destruct Hin as [Hin|[]]. injection Hin as Hin.
      pose proof (hand_line_starts "RIGHT"
                    (hand_states (session context) actions right)) as Hp.
      rewrite Hin in Hp. discriminate.
    + destruct Hin as [Hin|[]]. discriminate.
  - destruct Hin as [Hin|[]]. discriminate.
Qed.

Lemma list_sum_zero (f : frame -> nat) frames :
  (forall context, f context = 0%nat) -> list_sum (map f frames) = 0%nat.
Proof.
  intros Hf. induction frames as [|context rest IH]; [reflexivity|].
  cbn [map]. rewrite list_sum_cons, IH, Hf. reflexivity.
Qed.

(** X12.  An empty line is printed after every frame except the one the
    loop breaks on: a run prints as many empty lines as frames were
    yielded, and ten when eleven or more were. *)
Theorem blank_lines_between_frames frames :
  count is_blank (run_trace (script frames ∅)) = Nat.min 10 (length frames).
Proof.
  rewrite count_script. unfold script_loop_trace. rewrite count_loop.
  rewrite list_sum_zero by (intros context; apply count_blank_iteration).
  replace (count is_blank setup_trace) with 0%nat by (vm_compute; reflexivity).
  replace (count is_blank header_trace) with 0%nat by (vm_compute; reflexivity).
  cbn [is_blank String.eqb]. rewrite Nat.sub_0_r.
  destruct (existsb focused (polled_frames 0 frames));
    vm_compute (count _ (closing_trace _)); lia.
Qed.

(** X13.  Over a whole run the runtime is synchronised once per focused
    frame among those the loop gets to, and queried fourteen times per
    such frame (seven actions for each of the two hands); frames that are
    not focused cause no call. *)
Theorem runtime_calls_per_focused_frame frames :
  let focused_frames := length (List.filter focused (polled_frames 0 frames)) in
  count is_sync (run_trace (script frames ∅)) = focused_frames
  /\ count is_query (run_trace (script frames ∅)) = (14 * focused_frames)%nat.
Proof.
  cbv zeta. split; rewrite count_script; unfold script_loop_trace; rewrite count_loop.
  - rewrite (list_sum_focused 1)
      by (intros context; apply count_sync_iteration).
    replace (count is_sync setup_trace) with 0%nat by (vm_compute; reflexivity).
    replace (count is_sync header_trace) with 0%nat by (vm_compute; reflexivity).
    cbn [is_sync].
    destruct (existsb focused (polled_frames 0 frames));
      vm_compute (count _ (closing_trace _)); lia.
  - rewrite (list_sum_focused 14)
      by (intros context; rewrite count_query_iteration; reflexivity).
    replace (count is_query setup_trace) with 0%nat by (vm_compute; reflexivity).
    replace (count is_query header_trace) with 0%nat by (vm_compute; reflexivity).
    cbn [is_query].
    destruct (existsb focused (polled_frames 0 frames));
      vm_compute (count _ (closing_trace _)); lia.
Qed.

(** ** Setup and tables *)

(** X14.  The action type the loop passes to [get_state] for a name is
    the type the action of that name was created with: every entry of the
    actions dictionary the setup builds is the handle created under its own
    key with the type [polled_type] gives, and every [create_action] call
    of the setup declares two subaction paths. *)
Theorem polled_type_is_created_type :
  exists hand_paths actions trace,
    setup loaded_globals = (Returned (hand_paths, actions), loaded_globals, trace)
    /\ length hand_paths = 2%nat
    /\ Forall (fun '(name, action) => action = ActionHandle (polled_type name) name)
              actions
    /\ (forall action_type name localized n,
          In (create_action_call action_type name localized n) trace ->
          action_type = polled_type name /\ n = 2%nat
          /\ In (name, ActionHandle action_type name) actions).
Proof.
  exists [left_hand; right_hand], script_actions, setup_trace.
  split; [apply setup_run|]. split; [reflexivity|]. split.
  - unfold script_actions. repeat (constructor; [reflexivity|]). constructor.
  - intros action_type name localized n Hin.
    assert (Hcreated :
      List.filter (fun e => match e with create_action_call _ _ _ _ => true | _ => false end)
                  setup_trace
      = [ create_action_call FLOAT_INPUT "trigger" "Trigger" 2;
          create_action_call FLOAT_INPUT "squeeze" "Squeeze" 2;
          create_action_call VECTOR2F_INPUT "joystick" "Joystick" 2;
          create_action_call BOOLEAN_INPUT "button_a" "Button A" 2;
          create_action_call BOOLEAN_INPUT "button_b" "Button B" 2;
          create_action_call BOOLEAN_INPUT "button_a_touch" "Button A Touch" 2;
          create_action_call BOOLEAN_INPUT "button_b_touch" "Button B Touch" 2 ])
      by (vm_compute; reflexivity).
    assert (Hin' : In (create_action_call action_type name localized n)
                      (List.filter (fun e => match e with
                                             | create_action_call _ _ _ _ => true
                                             | _ => false end) setup_trace)).
    { apply filter_In. split; [exact Hin | reflexivity]. }
    rewrite Hcreated in Hin'. cbn [In] in Hin'.
    repeat (destruct Hin' as [Hin'|Hin'];
            [injection Hin' as <- <- <- <-; repeat split; cbn; tauto|]).
    destruct Hin'.
Qed.

(** X15.  Every profile that has an entry in a component-path table is a
    key of [PROFILES], so the lookup [PROFILES[profile_name]] cannot fail
    for a profile that has paths to bind; and every key of [PROFILES] has a
    trigger entry, so every profile of the script gets bindings. *)
Theorem table_profiles_are_known
    (table_name : string) (table : gmap string (string * string)) (profile : string) :
  (In (table_name, table) component_path_tables ->
   is_Some (table !! profile) -> is_Some (PROFILES !! profile))
  /\ (is_Some (PROFILES !! profile) -> is_Some (TRIGGER_PATHS !! profile)).
Proof.
  split.
  - intros Htable [paths Hentry].
    unfold component_path_tables in Htable. cbn [In] in Htable.
    repeat (destruct Htable as [Htable|Htable];
            [ injection Htable as <- <-;
              apply elem_of_list_to_map_2, list_elem_of_In in Hentry;
              cbn [In] in Hentry;
              repeat (destruct Hentry as [Hentry|Hentry];
                      [injection Hentry as <- <-; vm_compute; eauto|]);
              destruct Hentry
            | ]).
    destruct Htable.
  - intros [path Hentry].
    apply elem_of_list_to_map_2, list_elem_of_In in Hentry. cbn [In] in Hentry.
    repeat (destruct Hentry as [Hentry|Hentry];
            [injection Hentry as <- <-; vm_compute; eauto|]).
    destruct Hentry.
Qed.

(** X15, at the vive entry of [JOYSTICK_PATHS]. *)
Lemma table_profiles_are_known_witness : is_Some (PROFILES !! "vive").
Proof.
  apply (table_profiles_are_known "JOYSTICK_PATHS" JOYSTICK_PATHS "vive").
  - cbn. tauto.
  - vm_compute. eauto.
Defined.
